(** * safe-json: validators for unknown JSON, embedded in Rocq

    A shallow embedding of the TypeScript library [@ryannhg/safe-json]
    ([src/utils.ts], [src/result.ts], [src/problem.ts], [src/index.ts])
    together with the properties of its validators.

    Data model.  A validator receives [data : unknown], any value of the
    host.  Values are modelled as a tree: the primitives of the language
    (undefined, null, booleans, IEEE 754 doubles, strings, big integers,
    symbols), functions as opaque atoms, arrays as the list of their
    elements and ordinary objects as the table of their own properties in
    insertion order.  Reading an array hole yields [undefined], so a hole
    is the element [JUndefined].  An object of a tree inherits from
    [Object.prototype] and an array from [Array.prototype]: a property
    read that finds no own property finds the member of that name of the
    prototype (constructor, toString, push, ...), and an assignment to the
    name [__proto__] runs the setter of [Object.prototype].  Objects with
    another prototype, accessors of their own and proxies are not part of
    a value tree. *)

From Stdlib Require Import String Ascii List Bool Arith NArith ZArith Lia.
From Stdlib Require Import SpecFloat Decimal DecimalString Permutation Sorted.
Import ListNotations.

Local Open Scope string_scope.
Local Open Scope list_scope.

Set Implicit Arguments.

(** ** Values of the host *)

Local Unset Elimination Schemes.

Inductive value : Type :=
| JUndefined
| JNull
| JBoolean (b : bool)
| JNumber (n : spec_float)
| JString (s : string)
| JBigInt (z : Z)
| JSymbol (description : string)
| JFunction (name : string)
| JArray (elements : list value)
| JObject (props : list (string * value)).

Local Set Elimination Schemes.

(** Number literals: the double nearest to an integer, [NaN], [Infinity]. *)
Definition number_of_Z (z : Z) : spec_float := binary_normalize 53 1024 z 0 false.
Definition NaN : spec_float := S754_nan.
Definition Infinity : spec_float := S754_infinity false.
Definition NegInfinity : spec_float := S754_infinity true.

(** The [typeof] operator. *)
Definition typeof (data : value) : string :=
  match data with
  | JUndefined => "undefined"
  | JNull => "object"
  | JBoolean _ => "boolean"
  | JNumber _ => "number"
  | JString _ => "string"
  | JBigInt _ => "bigint"
  | JSymbol _ => "symbol"
  | JFunction _ => "function"
  | JArray _ => "object"
  | JObject _ => "object"
  end.

(** [data instanceof Array] and [data === null]. *)
Definition instanceofArray (data : value) : bool :=
  match data with JArray _ => true | _ => false end.

Definition isNull (data : value) : bool :=
  match data with JNull => true | _ => false end.

(** ** src/utils.ts *)

Module Utils.

Definition typeOf (data : value) : string :=
  if instanceofArray data then "array"
  else if isNull data then "null"
  else typeof data.

End Utils.

(** ** src/result.ts *)

Inductive Result (value reason : Type) : Type :=
| pass (v : value)
| fail (r : reason).

Arguments pass {value reason} v.
Arguments fail {value reason} r.

(** ** src/problem.ts *)

(** The three kinds of [Problem], named after their constructors in the
    [Problem] object.  An index is a position of an array, a natural
    number. *)
Inductive Problem : Type :=
| expectation (expected actual : string)
| problemWithField (field : string) (problem : Problem)
| problemWithIndex (index : nat) (problem : Problem).

(** The double quote character, and the text a template literal gives
    for an array position: its decimal numeral. *)
Definition quote : string := String (ascii_of_nat 34) EmptyString.

Definition string_of_index (index : nat) : string :=
  NilEmpty.string_of_uint (Nat.to_uint index).

Module Problem.

Fixpoint toString (problem : Problem) : string :=
  match problem with
  | expectation expected actual =>
      "Expected " ++ expected ++ ", got " ++ actual ++ "."
  | problemWithField field problem' =>
      "Problem with field " ++ quote ++ field ++ quote ++ ": "
        ++ toString problem'
  | problemWithIndex index problem' =>
      "Problem at index " ++ quote ++ string_of_index index ++ quote ++ ": "
        ++ toString problem'
  end.

End Problem.

(** ** Properties of objects and arrays *)

(** An array index is a canonical numeric string below [2^32 - 1]:
    ["0"], or decimal digits that do not start with ['0']. *)
Definition digit_of (c : ascii) : option N :=
  let n := N_of_ascii c in
  if ((48 <=? n) && (n <=? 57))%N then Some (n - 48)%N else None.

Fixpoint digits_value (s : string) (acc : N) : option N :=
  match s with
  | EmptyString => Some acc
  | String c rest =>
      match digit_of c with
      | Some d => digits_value rest (10 * acc + d)%N
      | None => None
      end
  end.

Definition array_index (key : string) : option N :=
  match key with
  | EmptyString => None
  | String c rest =>
      match digits_value key 0 with
      | Some n =>
          if ((key =? "0") || negb (Ascii.eqb c "0"))
             && (n <? 2 ^ 32 - 1)%N
          then Some n else None
      | None => None
      end
  end.

Section Properties.

Variable A : Type.

(** [props[key]] on a table of own properties. *)
Fixpoint lookup (key : string) (props : list (string * A)) : option A :=
  match props with
  | [] => None
  | (k, a) :: rest => if k =? key then Some a else lookup key rest
  end.

(** An own data property [key] with value [v]: an existing property
    keeps its place, a new one is added last. *)
Fixpoint define_prop (props : list (string * A)) (key : string) (v : A)
  : list (string * A) :=
  match props with
  | [] => [(key, v)]
  | (k, a) :: rest =>
      if k =? key then (k, v) :: rest else (k, a) :: define_prop rest key v
  end.

(** [obj[key] = v] on an ordinary object that inherits from
    [Object.prototype].  Every name but one becomes an own property.  The
    name [__proto__] is an accessor of [Object.prototype]: the assignment
    runs its setter and makes no own property.  (When [v] is an object or
    null the setter replaces the prototype of [obj], which leads out of
    the value trees; the properties that read such an object are stated
    for descriptors that do not declare this name.) *)
Definition set_prop (props : list (string * A)) (key : string) (v : A)
  : list (string * A) :=
  if key =? "__proto__" then props else define_prop props key v.

(** The order in which [for (var key in props)] visits the own properties
    of an ordinary object, that of OrdinaryOwnPropertyKeys in ECMAScript:
    the names that are array indices in ascending numeric order, then the
    other names in the order of their creation.  [props] lists the
    properties in the order of their creation, for an object literal the
    order in which it declares them. *)
Fixpoint insert_index (i : N) (entry : string * A)
    (sorted : list (N * (string * A))) : list (N * (string * A)) :=
  match sorted with
  | [] => [(i, entry)]
  | (j, e) :: rest =>
      if (i <? j)%N then (i, entry) :: sorted
      else (j, e) :: insert_index i entry rest
  end.

Fixpoint integer_keys (props : list (string * A)) : list (N * (string * A)) :=
  match props with
  | [] => []
  | (k, a) :: rest =>
      match array_index k with
      | Some i => insert_index i (k, a) (integer_keys rest)
      | None => integer_keys rest
      end
  end.

Fixpoint string_keys (props : list (string * A)) : list (string * A) :=
  match props with
  | [] => []
  | (k, a) :: rest =>
      match array_index k with
      | Some _ => string_keys rest
      | None => (k, a) :: string_keys rest
      end
  end.

Definition for_in (props : list (string * A)) : list (string * A) :=
  map snd (integer_keys props) ++ string_keys props.

End Properties.

(** The members of [Object.prototype] and of [Array.prototype] with a
    string for name (ECMAScript 2023, with the legacy members of its
    annex B), functions all of them but the accessor [__proto__]. *)
Definition methods (names : list string) : list (string * value) :=
  map (fun name => (name, JFunction name)) names.

Definition object_members : list (string * value) :=
  ("constructor", JFunction "Object")
  :: methods ["hasOwnProperty"; "isPrototypeOf"; "propertyIsEnumerable";
              "toLocaleString"; "toString"; "valueOf";
              "__defineGetter__"; "__defineSetter__";
              "__lookupGetter__"; "__lookupSetter__"].

Definition array_members : list (string * value) :=
  ("constructor", JFunction "Array")
  :: methods ["at"; "concat"; "copyWithin"; "entries"; "every"; "fill";
              "filter"; "find"; "findIndex"; "findLast"; "findLastIndex";
              "flat"; "flatMap"; "forEach"; "includes"; "indexOf"; "join";
              "keys"; "lastIndexOf"; "map"; "pop"; "push"; "reduce";
              "reduceRight"; "reverse"; "shift"; "slice"; "some"; "sort";
              "splice"; "toLocaleString"; "toReversed"; "toSorted";
              "toSpliced"; "toString"; "unshift"; "values"; "with"].

(** The two prototypes as values, for the reads of [__proto__]: the
    prototype of [Object.prototype] is null, and [Array.prototype] has the
    length 0 and inherits from [Object.prototype]. *)
Definition Object_prototype : value :=
  JObject (object_members ++ [("__proto__", JNull)]).

Definition Array_prototype : value :=
  JObject (array_members ++ [("length", JNumber (number_of_Z 0))]).

(** The own property [key] of an array or an object: an array has its
    elements and its [length]. *)
Definition own_prop (data : value) (key : string) : option value :=
  match data with
  | JObject props => lookup key props
  | JArray elements =>
      match array_index key with
      | Some i => nth_error elements (N.to_nat i)
      | None =>
          if key =? "length"
          then Some (JNumber (number_of_Z (Z.of_nat (length elements))))
          else None
      end
  | _ => None
  end.

(** What the prototype chain of an array or an object has for [key]. *)
Definition inherited (data : value) (key : string) : option value :=
  match data with
  | JObject _ => lookup key (object_members ++ [("__proto__", Object_prototype)])
  | JArray _ =>
      lookup key (array_members ++ [("__proto__", Array_prototype)]
                  ++ object_members)
  | _ => None
  end.

(** [data[key]]: the own property, else the inherited one, else
    [undefined].  The validators read properties of arrays and of objects
    only. *)
Definition get_prop (data : value) (key : string) : value :=
  match own_prop data key with
  | Some v => v
  | None =>
      match inherited data key with
      | Some v => v
      | None => JUndefined
      end
  end.

(** ** src/index.ts *)

Definition ToResult : Type := value -> Result value Problem.

Record Handlers (R : Type) : Type := {
  onPass : value -> R;
  onFail : Problem -> R
}.

(** [run] returns what the handler it calls returns; a handler that
    assigns to variables of its caller is a function to the new contents
    of those variables. *)
Record Validator : Type := {
  run : forall R : Type, value -> Handlers R -> R;
  worksWith : value -> bool
}.

Arguments run v [R] data handlers : rename.

Definition toValidator (toResult : ToResult) : Validator := {|
  run := fun R data handlers =>
    let result := toResult data in
    match result with
    | pass value => onPass handlers value
    | fail reason => onFail handlers reason
    end;
  worksWith := fun data =>
    match toResult data with
    | pass _ => true
    | fail _ => false
    end
|}.

Definition expecting (expected : string) : ToResult := fun data =>
  if typeof data =? expected
  then pass data
  else fail (expectation expected (Utils.typeOf data)).

Definition expectingNull : ToResult := fun data =>
  if isNull data
  then pass data
  else fail (expectation "null" (Utils.typeOf data)).

(** The variables [values] and [reason] of [expectingArray], and [obj] and
    [reason] of [expectingObject]. *)
Module ArrayVars.
Record t : Type := { values : list value; reason : option Problem }.
End ArrayVars.

Module ObjectVars.
Record t : Type := { obj : list (string * value); reason : option Problem }.
End ObjectVars.

Section ExpectingArray.

Variable validator : Validator.
Variable data : list value.

(** The [for] loop of [expectingArray] from position [index] on, where
    [trips = data.length - index] iterations are left. *)
Fixpoint array_for (trips index : nat) (vars : ArrayVars.t)
  : Result value Problem :=
  match trips with
  | O => pass (JArray (ArrayVars.values vars))
  | S trips' =>
      let vars' :=
        run validator (nth index data JUndefined) {|
          onPass := fun value =>
            {| ArrayVars.values := ArrayVars.values vars ++ [value];
               ArrayVars.reason := ArrayVars.reason vars |};
          onFail := fun reason_ =>
            {| ArrayVars.values := ArrayVars.values vars;
               ArrayVars.reason := Some reason_ |}
        |} in
      match ArrayVars.reason vars' with
      | Some reason => fail (problemWithIndex index reason)
      | None => array_for trips' (S index) vars'
      end
  end.

End ExpectingArray.

Definition expectingArray (validator : Validator) : ToResult := fun data =>
  match data with
  | JArray elements =>
      array_for validator elements (length elements) 0
        {| ArrayVars.values := []; ArrayVars.reason := None |}
  | _ => fail (expectation "array" (Utils.typeOf data))
  end.

Definition expectingOptional (validator : Validator) : ToResult := fun data =>
  run validator data {|
    onPass := fun value => pass value;
    onFail := fun _ => pass JUndefined
  |}.

Definition Fields : Type := list (string * Validator).

(** The [for ... in] loop of [expectingObject] over the properties of
    [fields] that are still to visit. *)
Fixpoint object_for_in (entries : Fields) (data : value) (vars : ObjectVars.t)
  : Result value Problem :=
  match entries with
  | [] => pass (JObject (ObjectVars.obj vars))
  | (key, validator) :: rest =>
      let vars' :=
        run validator (get_prop data key) {|
          onPass := fun value =>
            {| ObjectVars.obj := set_prop (ObjectVars.obj vars) key value;
               ObjectVars.reason := ObjectVars.reason vars |};
          onFail := fun reason_ =>
            {| ObjectVars.obj := ObjectVars.obj vars;
               ObjectVars.reason := Some reason_ |}
        |} in
      match ObjectVars.reason vars' with
      | Some reason => fail (problemWithField key reason)
      | None => object_for_in rest data vars'
      end
  end.

Definition expectingObject (fields : Fields) : ToResult := fun data =>
  if negb (typeof data =? "object") || isNull data
  then fail (expectation "object" (Utils.typeOf data))
  else object_for_in (for_in fields) data
         {| ObjectVars.obj := []; ObjectVars.reason := None |}.

Module Expect.

(* primitives *)
Definition boolean : Validator := toValidator (expecting "boolean").
Definition number : Validator := toValidator (expecting "number").
Definition string : Validator := toValidator (expecting "string").
Definition null : Validator := toValidator expectingNull.
(* aggregates *)
Definition object (fields : Fields) : Validator :=
  toValidator (expectingObject fields).
Definition array (validator : Validator) : Validator :=
  toValidator (expectingArray validator).
Definition optional (validator : Validator) : Validator :=
  toValidator (expectingOptional validator).

End Expect.

(** ** Observing a validator *)

(** The outcome of a validator on [data], read through [run]: the spec's
    [classify]. *)
Definition classify (validator : Validator) (data : value)
  : Result value Problem :=
  run validator data {| onPass := fun value => pass value;
                        onFail := fun reason => fail reason |}.

(** The validators of the library are the records that [toValidator]
    builds. *)
Definition is_validator (validator : Validator) : Prop :=
  exists toResult, validator = toValidator toResult.

(** The four primitive validators and the name each expects. *)
Inductive primitive : Type := PBoolean | PNumber | PString | PNull.

Definition primitive_validator (p : primitive) : Validator :=
  match p with
  | PBoolean => Expect.boolean
  | PNumber => Expect.number
  | PString => Expect.string
  | PNull => Expect.null
  end.

Definition expected_name (p : primitive) : string :=
  match p with
  | PBoolean => "boolean"
  | PNumber => "number"
  | PString => "string"
  | PNull => "null"
  end.

(** The validators that the factory builds, as terms. *)
Local Unset Elimination Schemes.

Inductive Shape : Type :=
| SPrimitive (p : primitive)
| SObject (fields : list (string * Shape))
| SArray (item : Shape)
| SOptional (inner : Shape).

Local Set Elimination Schemes.

Fixpoint build (s : Shape) : Validator :=
  match s with
  | SPrimitive p => primitive_validator p
  | SObject fields =>
      Expect.object (map (fun entry => match entry with
                                       | (key, s') => (key, build s')
                                       end) fields)
  | SArray item => Expect.array (build item)
  | SOptional inner => Expect.optional (build inner)
  end.


(** ** Notions used to state the properties *)

(** The calls that [run] makes to its handlers, recorded by handlers that
    append to a log. *)
Inductive call : Type :=
| CalledOnPass (v : value)
| CalledOnFail (reason : Problem).

Definition logging : Handlers (list call -> list call) := {|
  onPass := fun v log => log ++ [CalledOnPass v];
  onFail := fun reason log => log ++ [CalledOnFail reason]
|}.

(** The value a validator hands to [onPass] on [data], [undefined] when it
    rejects [data]. *)
Definition validated (validator : Validator) (data : value) : value :=
  match classify validator data with
  | pass v => v
  | fail _ => JUndefined
  end.

(** A declared field with the value its validator hands to [onPass] on
    the property of that name. *)
Definition validated_entry (data : value) (entry : string * Validator)
  : string * value :=
  (fst entry, validated (snd entry) (get_prop data (fst entry))).

(** What the loop of [expectingArray] computes, by recursion on the
    elements that are left; [index] is the position of the first of them. *)
Fixpoint check_elements (toResult : ToResult) (elements : list value)
    (index : nat) (values : list value) : Result value Problem :=
  match elements with
  | [] => pass (JArray values)
  | x :: rest =>
      match toResult x with
      | pass v => check_elements toResult rest (S index) (values ++ [v])
      | fail reason => fail (problemWithIndex index reason)
      end
  end.

(** What the loop of [expectingObject] computes, by recursion on the
    properties that are left. *)
Fixpoint check_fields (entries : Fields) (data : value)
    (obj : list (string * value)) : Result value Problem :=
  match entries with
  | [] => pass (JObject obj)
  | (key, validator) :: rest =>
      match classify validator (get_prop data key) with
      | pass v => check_fields rest data (set_prop obj key v)
      | fail reason => fail (problemWithField key reason)
      end
  end.

(** Some values for the examples. *)
Definition number (mantissa exponent : Z) : value :=
  JNumber (binary_normalize 53 1024 mantissa exponent false).
Definition zero : value := JNumber (number_of_Z 0).
Definition one : value := JNumber (number_of_Z 1).
Definition two : value := JNumber (number_of_Z 2).
Definition three : value := JNumber (number_of_Z 3).

(** The validator of the tests and of the README. *)
Definition person : Validator :=
  Expect.object [("name", Expect.string); ("age", Expect.number)].

(** ** Paths of problems and well-formed descriptors *)

(** The expectation at the end of a problem: the expected and the actual
    name. *)
Fixpoint innermost (problem : Problem) : string * string :=
  match problem with
  | expectation expected actual => (expected, actual)
  | problemWithField _ problem' => innermost problem'
  | problemWithIndex _ problem' => innermost problem'
  end.

(** [data[index]] for a position of an array. *)
Definition read_index (data : value) (index : nat) : value :=
  match data with
  | JArray elements => nth index elements JUndefined
  | _ => JUndefined
  end.

(** The part of [data] that a problem points at: its fields and indices
    followed from [data] on. *)
Fixpoint locate (problem : Problem) (data : value) : value :=
  match problem with
  | expectation _ _ => data
  | problemWithField field problem' => locate problem' (get_prop data field)
  | problemWithIndex index problem' => locate problem' (read_index data index)
  end.

(** The name a validator that is not optional expects at the top. *)
Definition expected_of (s : Shape) : option string :=
  match s with
  | SPrimitive p => Some (expected_name p)
  | SObject _ => Some "object"
  | SArray _ => Some "array"
  | SOptional _ => None
  end.

(** A descriptor is an object: at every level its names are distinct.
    A well-formed one declares the name [__proto__] at no level. *)
Fixpoint well_formed (s : Shape) : Prop :=
  match s with
  | SPrimitive _ => True
  | SObject fields =>
      NoDup (map fst fields)
      /\ ~ In "__proto__" (map fst fields)
      /\ (fix each (l : list (string * Shape)) : Prop :=
            match l with
            | [] => True
            | (_, s') :: rest => well_formed s' /\ each rest
            end) fields
  | SArray item => well_formed item
  | SOptional inner => well_formed inner
  end.

(** [accepted exact s input out]: the value [out] is the part of [input]
    that the validator [s] accepts.  For a primitive it is the input
    itself.  For an array validator, input and output are arrays of the
    same length and each element of the output is the accepted part of
    the element of the input at its position.  For an object validator
    the input is an object, not null, the own names of the output are the
    declared names, no other and none twice, and the property of each
    declared name is the accepted part of the property of that name of
    the input.  For an optional validator it is the part that the inner
    validator accepts; unless [exact], it is [undefined] when the inner
    validator rejects the input. *)
Local Unset Elimination Schemes.


Local Set Elimination Schemes.

(** [follows s problem]: the problem is one that the structure of the
    validator allows.  Its innermost expectation expects the name of the
    validator it stops at, a field it names is a declared field and the
    rest of the problem follows the validator of that field, and an index
    is followed by a problem that follows the validator of the elements.
    No problem follows an optional validator. *)
Local Unset Elimination Schemes.

Inductive follows : Shape -> Problem -> Prop :=
| follows_primitive : forall p actual,
    follows (SPrimitive p) (expectation (expected_name p) actual)
| follows_object : forall fields actual,
    follows (SObject fields) (expectation "object" actual)
| follows_field : forall fields key s' problem,
    In (key, s') fields -> follows s' problem ->
    follows (SObject fields) (problemWithField key problem)
| follows_array : forall item actual,
    follows (SArray item) (expectation "array" actual)
| follows_index : forall item index problem,
    follows item problem ->
    follows (SArray item) (problemWithIndex index problem).

Local Set Elimination Schemes.

(** The sentence that renders an expectation. *)
Definition sentence (names : string * string) : string :=
  "Expected " ++ fst names ++ ", got " ++ snd names ++ ".".

(** ** examples/express/src/index.ts *)

Module Express.

(** What a handler answers: the status it sets and the value it hands to
    [res.json]. *)
Record Response : Type := { status : nat; json : value }.

(** A [Problem] as the object it is: its [kind] and its [data], with the
    properties in the order in which src/index.ts writes them. *)
Fixpoint problem_value (problem : Problem) : value :=
  match problem with
  | expectation expected actual =>
      JObject [("kind", JString "expectation");
               ("data", JObject [("actual", JString actual);
                                 ("expected", JString expected)])]
  | problemWithField field problem' =>
      JObject [("kind", JString "field");
               ("data", JObject [("field", JString field);
                                 ("problem", problem_value problem')])]
  | problemWithIndex index problem' =>
      JObject [("kind", JString "index");
               ("data", JObject [("index", JNumber (number_of_Z (Z.of_nat index)));
                                 ("problem", problem_value problem')])]
  end.

Definition person : Validator :=
  Expect.object [("name", Expect.string); ("age", Expect.number)].

Definition blogPost : Validator :=
  Expect.object [("title", Expect.string); ("body", Expect.string)].

(** The handler of [POST /api/people] on the body of the request. *)
Definition post_people (body : value) : Response :=
  if worksWith person body
  then {| status := 200;
          json := JObject [("status", JNumber (number_of_Z 200));
                           ("name", get_prop body "name");
                           ("age", get_prop body "age")] |}
  else {| status := 400;
          json := JObject [("status", JNumber (number_of_Z 400));
                           ("error", JString "name and age are required.")] |}.

(** The handler of [POST /api/posts] on the body of the request. *)
Definition post_posts (body : value) : Response :=
  run blogPost body {|
    onPass := fun post =>
      {| status := 200;
         json := JObject [("status", JNumber (number_of_Z 200));
                          ("post", post)] |};
    onFail := fun reason =>
      {| status := 400;
         json := JObject [("status", JNumber (number_of_Z 400));
                          ("reason", problem_value reason)] |}
  |}.

End Express.

(** * Properties *)

(** ** The wrapper [toValidator] *)

Lemma classify_toValidator (toResult : ToResult) (data : value) :
  classify (toValidator toResult) data = toResult data.
Proof.
  unfold classify, toValidator; simpl.
  destruct (toResult data); reflexivity.
Qed.

Lemma run_toValidator (toResult : ToResult) (R : Type) (data : value)
    (handlers : Handlers R) :
  run (toValidator toResult) data handlers =
  match toResult data with
  | pass v => onPass handlers v
  | fail reason => onFail handlers reason
  end.
Proof. reflexivity. Qed.

Lemma run_is_validator (validator : Validator) (R : Type) (data : value)
    (handlers : Handlers R) :
  is_validator validator ->
  run validator data handlers =
  match classify validator data with
  | pass v => onPass handlers v
  | fail reason => onFail handlers reason
  end.
Proof.
  intros [toResult ->].
  rewrite classify_toValidator. apply run_toValidator.
Qed.

Lemma worksWith_is_validator (validator : Validator) (data : value) :
  is_validator validator ->
  worksWith validator data =
  match classify validator data with
  | pass _ => true
  | fail _ => false
  end.
Proof.
  intros [toResult ->].
  rewrite classify_toValidator. reflexivity.
Qed.

Lemma toValidator_is_validator (toResult : ToResult) :
  is_validator (toValidator toResult).
Proof. exists toResult; reflexivity. Qed.

Create HintDb validators.
#[local] Hint Resolve toValidator_is_validator : validators.

(** C9. For every validator, [worksWith data] is true exactly when its
    [toResult] passes on [data], and [run data handlers] is the result of
    [onPass] on the validated value when [toResult] passes and the result
    of [onFail] on the problem when it fails; with handlers that log their
    calls, exactly one call is logged: one handler, once. *)
Theorem toValidator_worksWith_run (toResult : ToResult) (data : value) :
  (worksWith (toValidator toResult) data = true <->
   exists v, toResult data = pass v)
  /\ (forall (R : Type) (handlers : Handlers R) v,
        toResult data = pass v ->
        run (toValidator toResult) data handlers = onPass handlers v)
  /\ (forall (R : Type) (handlers : Handlers R) reason,
        toResult data = fail reason ->
        run (toValidator toResult) data handlers = onFail handlers reason)
  /\ (forall log,
        run (toValidator toResult) data logging log =
        log ++ [match toResult data with
                | pass v => CalledOnPass v
                | fail reason => CalledOnFail reason
                end]).
Proof.
  repeat split.
  - simpl. destruct (toResult data) as [v | reason]; intro H.
    + exists v; reflexivity.
    + discriminate H.
  - intros [v H]. simpl. rewrite H. reflexivity.
  - intros R handlers v H. rewrite run_toValidator, H. reflexivity.
  - intros R handlers reason H. rewrite run_toValidator, H. reflexivity.
  - intro log. rewrite run_toValidator.
    destruct (toResult data); reflexivity.
Qed.

Lemma toValidator_worksWith_run_witness :
  run Expect.number one logging [] = [CalledOnPass one]
  /\ run Expect.number JNull logging [] =
     [CalledOnFail (expectation "number" "null")].
Proof.
  split.
  - unfold Expect.number.
    rewrite (proj1 (proj2 (toValidator_worksWith_run (expecting "number") one))
               _ logging one eq_refl).
    reflexivity.
  - unfold Expect.number.
    rewrite (proj1 (proj2 (proj2
               (toValidator_worksWith_run (expecting "number") JNull)))
               _ logging (expectation "number" "null") eq_refl).
    reflexivity.
Defined.

(** ** Rendering of problems *)

(** C7. [Problem.toString] renders an expectation as
    [Expected {expected}, got {actual}.], a problem with a field as
    [Problem with field {field}: ] (the name between double quotes)
    followed by the rendering of the inner problem, and a problem with an
    index as [Problem at index {index}: ] (the index between double
    quotes) followed by the rendering of the inner problem; the field
    [age] over an expectation of a number that got a string renders as
    [Problem with field "age": Expected number, got string.] *)
Theorem toString_format :
  (forall expected actual,
      Problem.toString (expectation expected actual) =
      ("Expected " ++ expected ++ ", got " ++ actual ++ ".")%string)
  /\ (forall field inner,
      Problem.toString (problemWithField field inner) =
      ("Problem with field " ++ quote ++ field ++ quote ++ ": "
        ++ Problem.toString inner)%string)
  /\ (forall index inner,
      Problem.toString (problemWithIndex index inner) =
      ("Problem at index " ++ quote ++ string_of_index index ++ quote ++ ": "
        ++ Problem.toString inner)%string)
  /\ Problem.toString
       (problemWithField "age" (expectation "number" "string")) =
     ("Problem with field " ++ quote ++ "age" ++ quote
       ++ ": Expected number, got string.")%string
  /\ Problem.toString
       (problemWithIndex 2 (problemWithField "id"
          (expectation "number" "string"))) =
     ("Problem at index " ++ quote ++ "2" ++ quote ++ ": Problem with field "
       ++ quote ++ "id" ++ quote ++ ": Expected number, got string.")%string.
Proof.
  repeat split; reflexivity.
Qed.

(** ** Primitive validators *)

Lemma typeOf_null (data : value) :
  Utils.typeOf data = "null" <-> data = JNull.
Proof.
  split.
  - destruct data; simpl; intro H; try discriminate H; reflexivity.
  - intros ->. reflexivity.
Qed.

(** C2. A primitive validator works with a value exactly when the type
    name of the value ([array] for arrays, [null] for null, otherwise the
    name [typeof] gives) is the name the validator expects.  So
    [undefined] satisfies no primitive, the string [12] does not satisfy
    [number], zero, [false] and [null] satisfy only their own validator,
    and every number, [NaN] and the infinities included, satisfies
    [number]. *)
Theorem primitive_worksWith_iff_typeOf :
  (forall p data,
      worksWith (primitive_validator p) data = true <->
      Utils.typeOf data = expected_name p)
  /\ (forall p, worksWith (primitive_validator p) JUndefined = false)
  /\ worksWith Expect.number (JString "12") = false
  /\ (worksWith Expect.boolean zero = false
      /\ worksWith Expect.null zero = false
      /\ worksWith Expect.number (JBoolean false) = false
      /\ worksWith Expect.null (JBoolean false) = false
      /\ worksWith Expect.boolean JNull = false
      /\ worksWith Expect.number JNull = false)
  /\ (forall n, worksWith Expect.number (JNumber n) = true)
  /\ (worksWith Expect.number (JNumber NaN) = true
      /\ worksWith Expect.number (JNumber Infinity) = true
      /\ worksWith Expect.number (JNumber NegInfinity) = true).
Proof.
  split; [| repeat split; try reflexivity; intros []; reflexivity].
  intros p data; split.
  - destruct p, data; simpl; intro H; try discriminate H; reflexivity.
  - destruct p, data; simpl; intro H; try discriminate H; reflexivity.
Qed.

(** ** The optional combinator *)

Lemma expectingOptional_toValidator (toResult : ToResult) (data : value) :
  expectingOptional (toValidator toResult) data =
  pass (match toResult data with
        | pass v => v
        | fail _ => JUndefined
        end).
Proof.
  unfold expectingOptional. rewrite run_toValidator.
  destruct (toResult data); reflexivity.
Qed.

(** C6. For every child validator and every input, [optional] passes:
    with the child's validated value when the child passes, with
    [undefined] when the child fails.  So [worksWith] is true on every
    input and [run] calls [onPass], never [onFail]: the child's problem is
    not observable. *)
Theorem optional_always_passes (toResult : ToResult) (data : value) :
  (exists v, classify (Expect.optional (toValidator toResult)) data = pass v)
  /\ (forall v, toResult data = pass v ->
        classify (Expect.optional (toValidator toResult)) data = pass v)
  /\ (forall reason, toResult data = fail reason ->
        classify (Expect.optional (toValidator toResult)) data =
        pass JUndefined)
  /\ worksWith (Expect.optional (toValidator toResult)) data = true
  /\ (forall (R : Type) (handlers : Handlers R),
        run (Expect.optional (toValidator toResult)) data handlers =
        onPass handlers (validated (toValidator toResult) data)).
Proof.
  unfold Expect.optional, validated.
  rewrite !classify_toValidator, expectingOptional_toValidator.
  repeat split.
  - eexists; reflexivity.
  - intros v H; rewrite H; reflexivity.
  - intros reason H; rewrite H; reflexivity.
  - rewrite worksWith_is_validator by auto with validators.
    rewrite classify_toValidator, expectingOptional_toValidator. reflexivity.
  - intros R handlers. rewrite run_toValidator, expectingOptional_toValidator.
    reflexivity.
Qed.

Lemma optional_always_passes_witness :
  classify (Expect.optional Expect.number) one = pass one
  /\ classify (Expect.optional Expect.number) (JString "str") = pass JUndefined.
Proof.
  split.
  - apply (proj1 (proj2 (optional_always_passes (expecting "number") one))).
    reflexivity.
  - apply (proj1 (proj2 (proj2
             (optional_always_passes (expecting "number") (JString "str"))))
             (expectation "number" "string")).
    reflexivity.
Defined.

(** C10. Wrapping a validator in [optional] twice gives the same outcome
    on every input as wrapping it once: the child's validated value when
    the child passes, [undefined] otherwise; [worksWith] and [run] agree
    as well. *)
Theorem optional_idempotent (toResult : ToResult) (data : value) :
  classify (Expect.optional (Expect.optional (toValidator toResult))) data =
  classify (Expect.optional (toValidator toResult)) data
  /\ classify (Expect.optional (Expect.optional (toValidator toResult))) data =
     pass (match toResult data with
           | pass v => v
           | fail _ => JUndefined
           end)
  /\ worksWith (Expect.optional (Expect.optional (toValidator toResult))) data =
     worksWith (Expect.optional (toValidator toResult)) data
  /\ (forall (R : Type) (handlers : Handlers R),
        run (Expect.optional (Expect.optional (toValidator toResult)))
            data handlers =
        run (Expect.optional (toValidator toResult)) data handlers).
Proof.
  assert (E : expectingOptional (Expect.optional (toValidator toResult)) data =
              expectingOptional (toValidator toResult) data).
  { unfold Expect.optional.
    rewrite (expectingOptional_toValidator (expectingOptional _)).
    rewrite expectingOptional_toValidator. reflexivity. }
  unfold Expect.optional in *.
  repeat split.
  - rewrite !classify_toValidator. exact E.
  - rewrite classify_toValidator, E. apply expectingOptional_toValidator.
  - rewrite !worksWith_is_validator by auto with validators.
    rewrite !classify_toValidator, E. reflexivity.
  - intros R handlers.
    rewrite (run_toValidator (expectingOptional (toValidator (expectingOptional _)))).
    rewrite (run_toValidator (expectingOptional (toValidator toResult))).
    rewrite E. reflexivity.
Qed.

(** ** The array combinator *)

Lemma skipn_nth_cons (elements : list value) :
  forall index, index < length elements ->
    skipn index elements =
    nth index elements JUndefined :: skipn (S index) elements.
Proof.
  induction elements as [| x rest IH]; intros index H; simpl in H.
  - lia.
  - destruct index as [| index]; [reflexivity |].
    simpl. rewrite (IH index) by lia. reflexivity.
Qed.

(** The loop on positions is the recursion on the elements left. *)
Lemma array_for_check_elements (toResult : ToResult) (data : list value) :
  forall trips index values,
    index + trips = length data ->
    array_for (toValidator toResult) data trips index
      {| ArrayVars.values := values; ArrayVars.reason := None |} =
    check_elements toResult (skipn index data) index values.
Proof.
  induction trips as [| trips IH]; intros index values H.
  - replace index with (length data) by lia.
    rewrite skipn_all. reflexivity.
  - rewrite skipn_nth_cons by lia.
    cbn [array_for check_elements]. rewrite run_toValidator.
    destruct (toResult (nth index data JUndefined)) as [v | reason].
    + cbn. apply IH. lia.
    + reflexivity.
Qed.

Lemma check_elements_pass (toResult : ToResult) (elements values : list value) :
  Forall2 (fun x v => toResult x = pass v) elements values ->
  forall index acc,
    check_elements toResult elements index acc = pass (JArray (acc ++ values)).
Proof.
  induction 1 as [| x v elements values Hx _ IH]; intros index acc; simpl.
  - rewrite app_nil_r. reflexivity.
  - rewrite Hx, IH, <- app_assoc. reflexivity.
Qed.

Lemma check_elements_pass_inv (toResult : ToResult) (elements : list value) :
  forall index acc out,
    check_elements toResult elements index acc = pass out ->
    exists values,
      out = JArray (acc ++ values)
      /\ Forall2 (fun x v => toResult x = pass v) elements values.
Proof.
  induction elements as [| x rest IH]; intros index acc out H; simpl in H.
  - exists []. rewrite app_nil_r. split; [congruence | constructor].
  - destruct (toResult x) as [v | reason] eqn:Hx; [| discriminate H].
    destruct (IH _ _ _ H) as (values & -> & Hall).
    exists (v :: values). rewrite <- app_assoc. split; [reflexivity |].
    constructor; assumption.
Qed.

Lemma check_elements_fail (toResult : ToResult)
    (before values : list value) (x : value) (after : list value)
    (reason : Problem) :
  Forall2 (fun x v => toResult x = pass v) before values ->
  toResult x = fail reason ->
  forall index acc,
    check_elements toResult (before ++ x :: after) index acc =
    fail (problemWithIndex (index + length before) reason).
Proof.
  intros Hbefore Hx.
  induction Hbefore as [| y v before values Hy _ IH]; intros index acc; simpl.
  - rewrite Hx, Nat.add_0_r. reflexivity.
  - rewrite Hy, IH. do 2 f_equal. lia.
Qed.

Lemma expectingArray_check_elements (toResult : ToResult)
    (elements : list value) :
  classify (Expect.array (toValidator toResult)) (JArray elements) =
  check_elements toResult elements 0 [].
Proof.
  unfold Expect.array. rewrite classify_toValidator. unfold expectingArray.
  rewrite array_for_check_elements by reflexivity. reflexivity.
Qed.

(** C5. For every child validator, [array] fails on an input that is not
    an array with the expectation of an array and the type name of the
    input.  On an array it checks the elements from position 0 on: when
    the child passes on the elements [before] and fails on the next one,
    it fails with that position and the child's problem, whatever the
    elements [after] are; when the child passes on every element it passes
    with the array of the validated values, as long as the input and in
    its order.  The empty array passes with the empty array. *)
Theorem array_validator_spec (toResult : ToResult) :
  (forall data,
      instanceofArray data = false ->
      classify (Expect.array (toValidator toResult)) data =
      fail (expectation "array" (Utils.typeOf data)))
  /\ (forall before values x after reason,
      Forall2 (fun y v => toResult y = pass v) before values ->
      toResult x = fail reason ->
      classify (Expect.array (toValidator toResult))
               (JArray (before ++ x :: after)) =
      fail (problemWithIndex (length before) reason))
  /\ (forall elements values,
      Forall2 (fun y v => toResult y = pass v) elements values ->
      classify (Expect.array (toValidator toResult)) (JArray elements) =
      pass (JArray values)
      /\ length values = length elements)
  /\ classify (Expect.array (toValidator toResult)) (JArray []) =
     pass (JArray []).
Proof.
  repeat split.
  - intros data H. unfold Expect.array. rewrite classify_toValidator.
    destruct data; try reflexivity. discriminate H.
  - intros before values x after reason Hbefore Hx.
    rewrite expectingArray_check_elements.
    apply check_elements_fail with (index := 0) (values := values);
      assumption.
  - rewrite expectingArray_check_elements.
    apply check_elements_pass with (index := 0) (acc := []). assumption.
  - symmetry. eapply Forall2_length; eassumption.
Qed.

Lemma array_validator_spec_witness :
  classify (Expect.array Expect.number) (JObject []) =
    fail (expectation "array" "object")
  /\ classify (Expect.array Expect.number) (JArray [one; two; JString "3"]) =
     fail (problemWithIndex 2 (expectation "number" "string"))
  /\ classify (Expect.array Expect.number) (JArray [one; two]) =
     pass (JArray [one; two]).
Proof.
  destruct (array_validator_spec (expecting "number"))
    as (Hother & Hfail & Hpass & _).
  split; [| split].
  - apply (Hother (JObject [])). reflexivity.
  - apply (Hfail [one; two] [one; two] (JString "3") []).
    + repeat constructor.
    + reflexivity.
  - apply (Hpass [one; two] [one; two]). repeat constructor.
Defined.

(** ** Enumeration of properties *)

Section Enumeration.

Variable A : Type.

Lemma insert_index_Permutation (i : N) (entry : string * A) sorted :
  Permutation (insert_index i entry sorted) ((i, entry) :: sorted).
Proof.
  induction sorted as [| [j e] rest IH]; simpl.
  - apply Permutation_refl.
  - destruct (i <? j)%N.
    + apply Permutation_refl.
    + eapply perm_trans; [apply perm_skip, IH | apply perm_swap].
Qed.

(** [for ... in] visits every property, once. *)
Lemma for_in_Permutation (props : list (string * A)) :
  Permutation (for_in props) props.
Proof.
  unfold for_in.
  induction props as [| [k a] rest IH]; simpl.
  - apply Permutation_refl.
  - destruct (array_index k) as [i |].
    + eapply perm_trans.
      * apply Permutation_app_tail, Permutation_map, insert_index_Permutation.
      * simpl. apply perm_skip, IH.
    + apply Permutation_sym. eapply perm_trans.
      * apply perm_skip, Permutation_sym, IH.
      * apply Permutation_middle.
Qed.

(** Without array indices among the names, it visits them in the order
    of their declaration. *)
Lemma for_in_declaration_order (props : list (string * A)) :
  (forall key, In key (map fst props) -> array_index key = None) ->
  for_in props = props.
Proof.
  intro H.
  assert (E : integer_keys props = [] /\ string_keys props = props).
  { induction props as [| [k a] rest IH]; simpl.
    - split; reflexivity.
    - rewrite (H k) by (left; reflexivity).
      destruct IH as [Hint Hstr].
      + intros key Hkey. apply H. right; exact Hkey.
      + split; [exact Hint | rewrite Hstr; reflexivity]. }
  unfold for_in. destruct E as [-> ->]. reflexivity.
Qed.

Lemma insert_index_sorted (i : N) (entry : string * A) sorted :
  StronglySorted N.le (map fst sorted) ->
  StronglySorted N.le (map fst (insert_index i entry sorted)).
Proof.
  induction sorted as [| [j e] rest IH]; simpl; intro H.
  - repeat constructor.
  - inversion H as [| ? ? Hrest Hall]; subst.
    destruct (i <? j)%N eqn:E; simpl.
    + apply N.ltb_lt in E. constructor; [exact H |].
      constructor; [lia |].
      eapply Forall_impl; [| exact Hall]. simpl; intros; lia.
    + apply N.ltb_ge in E. constructor; [apply IH, Hrest |].
      apply Forall_forall. intros n Hn.
      apply (Permutation_in n
               (Permutation_map fst (insert_index_Permutation i entry rest)))
        in Hn.
      destruct Hn as [<- | Hn]; [exact E |].
      rewrite Forall_forall in Hall. apply Hall, Hn.
Qed.

(** The array indices come in ascending order, each with its name, and
    the other names keep the order of their declaration. *)
Lemma for_in_order (props : list (string * A)) :
  StronglySorted N.le (map fst (integer_keys props))
  /\ Forall (fun ie => array_index (fst (snd ie)) = Some (fst ie))
            (integer_keys props)
  /\ string_keys props =
     filter (fun e => match array_index (fst e) with
                      | Some _ => false
                      | None => true
                      end) props.
Proof.
  induction props as [| [k a] rest (Hsorted & Hindex & Hstring)]; simpl.
  - repeat split; constructor.
  - destruct (array_index k) as [i |] eqn:E.
    + repeat split.
      * apply insert_index_sorted, Hsorted.
      * apply Forall_forall. intros ie Hie.
        apply (Permutation_in ie (insert_index_Permutation i (k, a) _)) in Hie.
        destruct Hie as [<- | Hie]; [exact E |].
        rewrite Forall_forall in Hindex. apply Hindex, Hie.
      * exact Hstring.
    + repeat split; [exact Hsorted | exact Hindex |].
      rewrite Hstring. reflexivity.
Qed.

Lemma lookup_In_NoDup (props : list (string * A)) (key : string) (a : A) :
  NoDup (map fst props) -> In (key, a) props -> lookup key props = Some a.
Proof.
  induction props as [| [k b] rest IH]; simpl; intros Hnodup Hin.
  - contradiction.
  - inversion Hnodup as [| ? ? Hk Hrest]; subst.
    destruct Hin as [E | Hin].
    + inversion E; subst. rewrite String.eqb_refl. reflexivity.
    + destruct (String.eqb_spec k key) as [-> | _].
      * exfalso. apply Hk. apply (in_map fst _ _ Hin).
      * apply IH; assumption.
Qed.

Lemma lookup_not_In (props : list (string * A)) (key : string) :
  ~ In key (map fst props) -> lookup key props = None.
Proof.
  induction props as [| [k b] rest IH]; simpl; intro H.
  - reflexivity.
  - destruct (String.eqb_spec k key) as [-> | _].
    + exfalso. apply H. left; reflexivity.
    + apply IH. intro Hin. apply H. right; exact Hin.
Qed.

Lemma define_prop_new (props : list (string * A)) (key : string) (a : A) :
  ~ In key (map fst props) -> define_prop props key a = props ++ [(key, a)].
Proof.
  induction props as [| [k b] rest IH]; simpl; intro H.
  - reflexivity.
  - destruct (String.eqb_spec k key) as [-> | _].
    + exfalso. apply H. left; reflexivity.
    + rewrite IH; [reflexivity |]. intro Hin. apply H. right; exact Hin.
Qed.

Lemma define_prop_In (props : list (string * A)) (key : string) (a : A) k b :
  In (k, b) (define_prop props key a) ->
  (k, b) = (key, a) \/ In (k, b) props.
Proof.
  induction props as [| [k' b'] rest IH]; simpl.
  - intros [E | []]. left; symmetry; exact E.
  - destruct (String.eqb_spec k' key) as [-> | _]; simpl.
    + intros [E | Hin]; [left; symmetry; exact E | right; right; exact Hin].
    + intros [E | Hin]; [right; left; exact E |].
      destruct (IH Hin) as [E | Hin']; [left; exact E | right; right; exact Hin'].
Qed.

Lemma set_prop_new (props : list (string * A)) (key : string) (a : A) :
  key <> "__proto__" ->
  ~ In key (map fst props) -> set_prop props key a = props ++ [(key, a)].
Proof.
  intros N H. unfold set_prop.
  destruct (String.eqb_spec key "__proto__"); [contradiction |].
  apply define_prop_new, H.
Qed.

Lemma set_prop_In (props : list (string * A)) (key : string) (a : A) k b :
  In (k, b) (set_prop props key a) -> (k, b) = (key, a) \/ In (k, b) props.
Proof.
  unfold set_prop. destruct (key =? "__proto__").
  - intro Hin. right; exact Hin.
  - apply define_prop_In.
Qed.

End Enumeration.

(** ** The object combinator *)

Lemma object_guard (data : value) :
  typeof data = "object" -> data <> JNull ->
  negb (typeof data =? "object") || isNull data = false.
Proof.
  intros Htype Hnull. rewrite Htype. simpl.
  destruct data; try reflexivity. contradiction.
Qed.

Lemma classify_object (fields : Fields) (data : value) :
  typeof data = "object" -> data <> JNull ->
  classify (Expect.object fields) data =
  object_for_in (for_in fields) data
    {| ObjectVars.obj := []; ObjectVars.reason := None |}.
Proof.
  intros Htype Hnull. unfold Expect.object.
  rewrite classify_toValidator. unfold expectingObject.
  rewrite object_guard by assumption. reflexivity.
Qed.

(** The loop over the declared fields ends in a pass with an object or in
    a problem with one of the fields it was given. *)
Lemma object_for_in_outcome (data : value) (entries : Fields) :
  forall vars,
    (exists out, object_for_in entries data vars = pass (JObject out))
    \/ (exists key reason,
          In key (map fst entries)
          /\ object_for_in entries data vars =
             fail (problemWithField key reason)).
Proof.
  induction entries as [| [key validator] rest IH]; intro vars.
  - left. eexists; reflexivity.
  - cbn [object_for_in].
    match goal with
    | |- context [ObjectVars.reason ?v] => destruct (ObjectVars.reason v) as [reason |]
    end.
    + right. exists key, reason. split; [left; reflexivity | reflexivity].
    + match goal with
      | |- context [object_for_in rest data ?v] => destruct (IH v) as [Hpass | (k & r & Hin & Hfail)]
      end.
      * left; exact Hpass.
      * right. exists k, r. split; [right; exact Hin | exact Hfail].
Qed.

Lemma object_for_in_fail (data : value) (key : string) (validator : Validator)
    (post : Fields) (reason : Problem) (pre : Fields) :
  Forall (fun entry => is_validator (snd entry)) pre ->
  is_validator validator ->
  (forall k v, In (k, v) pre ->
               exists y, classify v (get_prop data k) = pass y) ->
  classify validator (get_prop data key) = fail reason ->
  forall obj,
    object_for_in (pre ++ (key, validator) :: post) data
      {| ObjectVars.obj := obj; ObjectVars.reason := None |} =
    fail (problemWithField key reason).
Proof.
  intros Hpre Hvalidator Hpass Hfail.
  induction pre as [| [k v] pre IH]; intro obj; simpl.
  - rewrite run_is_validator by assumption. rewrite Hfail. reflexivity.
  - inversion Hpre as [| ? ? Hv Hrest]; subst.
    rewrite run_is_validator by exact Hv.
    destruct (Hpass k v (or_introl eq_refl)) as [y ->]. cbn.
    apply IH; [exact Hrest |].
    intros k' v' Hin. apply Hpass. right; exact Hin.
Qed.

Lemma object_for_in_check_fields (data : value) (entries : Fields) :
  Forall (fun entry => is_validator (snd entry)) entries ->
  forall obj,
    object_for_in entries data
      {| ObjectVars.obj := obj; ObjectVars.reason := None |} =
    check_fields entries data obj.
Proof.
  induction 1 as [| [key validator] rest Hv _ IH]; intro obj.
  - reflexivity.
  - cbn [object_for_in check_fields].
    rewrite run_is_validator by exact Hv.
    destruct (classify validator (get_prop data key)); cbn.
    + apply IH.
    + reflexivity.
Qed.

Lemma check_fields_pass (data : value) (entries : Fields) :
  ~ In "__proto__" (map fst entries) ->
  (forall k v, In (k, v) entries ->
               exists y, classify v (get_prop data k) = pass y) ->
  forall obj,
    NoDup (map fst obj ++ map fst entries) ->
    check_fields entries data obj =
    pass (JObject (obj ++ map (validated_entry data) entries)).
Proof.
  induction entries as [| [key validator] rest IH];
    intros Hproto Hpass obj Hnodup.
  - simpl. rewrite app_nil_r. reflexivity.
  - cbn [check_fields map].
    unfold validated_entry at 1, validated. cbn [fst snd].
    destruct (Hpass key validator (or_introl eq_refl)) as [y ->].
    rewrite set_prop_new.
    + rewrite IH.
      * rewrite <- app_assoc. reflexivity.
      * intro Hin. apply Hproto. right; exact Hin.
      * intros k v Hin. apply Hpass. right; exact Hin.
      * rewrite map_app. simpl. rewrite <- app_assoc. exact Hnodup.
    + intros ->. apply Hproto. left; reflexivity.
    + intro Hin. simpl in Hnodup.
      apply NoDup_remove_2 in Hnodup. apply Hnodup.
      apply in_or_app. left; exact Hin.
Qed.

Lemma map_fst_validated_entry (data : value) (entries : Fields) :
  map fst (map (validated_entry data) entries) = map fst entries.
Proof.
  rewrite map_map. apply map_ext. intros [k v]; reflexivity.
Qed.

(** C1, evaluated where the code departs from it: the specification has
    [object] fail on every array with the expectation of an object that
    got an array, but the guard of [expectingObject] tests [typeof], which
    is [object] for an array.  The empty array, whose type name is
    [array], passes the validator without fields, and an array of two
    elements passes a validator that declares a numeric [length]. *)
Theorem object_accepts_array :
  Utils.typeOf (JArray []) = "array"
  /\ classify (Expect.object []) (JArray []) = pass (JObject [])
  /\ classify (Expect.object []) (JArray []) <>
     fail (expectation "object" "array")
  /\ worksWith (Expect.object []) (JArray []) = true
  /\ classify (Expect.object [("length", Expect.number)])
              (JArray [one; two]) =
     pass (JObject [("length", two)]).
Proof.
  repeat split; try reflexivity. discriminate.
Qed.

(** No array is rejected by the guard of [object]: the validator goes on
    to check the declared fields against the properties of the array, so
    it passes with an object or fails with a problem on a declared field,
    and never fails with the expectation of an object that got an
    array. *)
Lemma object_on_array (fields : Fields) (elements : list value) :
  classify (Expect.object fields) (JArray elements) =
  object_for_in (for_in fields) (JArray elements)
    {| ObjectVars.obj := []; ObjectVars.reason := None |}
  /\ ((exists out,
         classify (Expect.object fields) (JArray elements) =
         pass (JObject out))
      \/ (exists key reason,
            In key (map fst fields)
            /\ classify (Expect.object fields) (JArray elements) =
               fail (problemWithField key reason)))
  /\ classify (Expect.object fields) (JArray elements) <>
     fail (expectation "object" "array").
Proof.
  assert (E : classify (Expect.object fields) (JArray elements) =
              object_for_in (for_in fields) (JArray elements)
                {| ObjectVars.obj := []; ObjectVars.reason := None |}).
  { apply classify_object; [reflexivity | discriminate]. }
  assert (O := object_for_in_outcome (JArray elements) (for_in fields)
                 {| ObjectVars.obj := []; ObjectVars.reason := None |}).
  rewrite <- E in O.
  split; [exact E | split].
  - destruct O as [Hpass | (key & reason & Hin & Hfail)].
    + left; exact Hpass.
    + right. exists key, reason. split; [| exact Hfail].
      apply (Permutation_in key
               (Permutation_map fst (for_in_Permutation fields))), Hin.
  - destruct O as [[out Hpass] | (key & reason & _ & Hfail)].
    + rewrite Hpass. discriminate.
    + rewrite Hfail. discriminate.
Qed.

(** C3, as stated, fails: with the fields [b] and [0] declared in this
    order and an input on which both fail, the first declared field [b]
    fails, yet the problem reported is the one of field [0]. *)
Lemma object_declaration_order_counterexample :
  let fields := [("b", Expect.string); ("0", Expect.string)] in
  let data := JObject [("b", one); ("0", two)] in
  classify Expect.string (get_prop data "b") =
    fail (expectation "string" "number")
  /\ classify (Expect.object fields) data =
     fail (problemWithField "0" (expectation "string" "number"))
  /\ classify (Expect.object fields) data <>
     fail (problemWithField "b" (expectation "string" "number")).
Proof.
  repeat split; try reflexivity. discriminate.
Qed.

(** C3, amended. For every fields descriptor and every input that is an
    object and not null, the object validator visits the declared fields
    in the order of [for ... in]: the names that are array indices first,
    in ascending order, then the other names in the order of their
    declaration; this is the declaration order when no declared name is
    an array index.  When the child validators pass on the fields [pre]
    visited first and the child of the next field [key] fails, the object
    fails with the problem of [key] over the child's problem, and so does
    every descriptor that is visited alike up to [key], whatever fields
    come later. *)
Theorem object_first_failure (fields : Fields) (data : value)
    (pre : Fields) (key : string) (validator : Validator) (post : Fields)
    (reason : Problem) :
  typeof data = "object" -> data <> JNull ->
  for_in fields = pre ++ (key, validator) :: post ->
  Forall (fun entry => is_validator (snd entry)) pre ->
  is_validator validator ->
  (forall k v, In (k, v) pre ->
               exists y, classify v (get_prop data k) = pass y) ->
  classify validator (get_prop data key) = fail reason ->
  classify (Expect.object fields) data = fail (problemWithField key reason)
  /\ (forall fields' post',
        for_in fields' = pre ++ (key, validator) :: post' ->
        classify (Expect.object fields') data =
        fail (problemWithField key reason))
  /\ ((forall k, In k (map fst fields) -> array_index k = None) ->
      for_in fields = fields)
  /\ (for_in fields = map snd (integer_keys fields) ++ string_keys fields
      /\ StronglySorted N.le (map fst (integer_keys fields))
      /\ Forall (fun ie => array_index (fst (snd ie)) = Some (fst ie))
                (integer_keys fields)
      /\ string_keys fields =
         filter (fun e => match array_index (fst e) with
                          | Some _ => false
                          | None => true
                          end) fields).
Proof.
  intros Htype Hnull Horder Hpre Hvalidator Hpass Hfail.
  assert (G : forall fields' post',
             for_in fields' = pre ++ (key, validator) :: post' ->
             classify (Expect.object fields') data =
             fail (problemWithField key reason)).
  { intros fields' post' Horder'.
    rewrite classify_object, Horder' by assumption.
    apply object_for_in_fail; assumption. }
  split; [apply (G fields post Horder) | split; [exact G | split]].
  - apply for_in_declaration_order.
  - split; [reflexivity | apply for_in_order].
Qed.

Lemma object_first_failure_witness :
  classify (Expect.object [("a", Expect.string); ("b", Expect.string)])
           (JObject [("a", one); ("b", two)]) =
  fail (problemWithField "a" (expectation "string" "number")).
Proof.
  apply (@object_first_failure
           [("a", Expect.string); ("b", Expect.string)]
           (JObject [("a", one); ("b", two)])
           [] "a" Expect.string [("b", Expect.string)]
           (expectation "string" "number")).
  - reflexivity.
  - discriminate.
  - reflexivity.
  - constructor.
  - exists (expecting "string"); reflexivity.
  - intros k v [].
  - reflexivity.
Defined.

(** C4, as stated, fails in three ways.  On an input that is not an
    object: on the number 1 no declared field fails, for a descriptor
    without fields and for one with an optional field alike, yet the
    object validator fails with the expectation of an object.  On a
    declared name that the input lacks but inherits: the empty object has
    no property [toString] of its own, yet the child of that field is run
    on the inherited function, not on [undefined].  On the declared name
    [__proto__]: the child passes on the own property of that name of the
    input, yet the output has no property of that name. *)
Lemma object_guard_counterexample :
  (forall key validator,
      In (key, validator) (@nil (string * Validator)) ->
      exists v, classify validator (get_prop one key) = pass v)
  /\ classify (Expect.object []) one = fail (expectation "object" "number")
  /\ classify (Expect.optional Expect.number) (get_prop one "a") =
     pass JUndefined
  /\ classify (Expect.object [("a", Expect.optional Expect.number)]) one =
     fail (expectation "object" "number")
  /\ (own_prop (JObject []) "toString" = None
      /\ get_prop (JObject []) "toString" = JFunction "toString"
      /\ classify (Expect.object [("toString", Expect.string)]) (JObject []) =
         fail (problemWithField "toString" (expectation "string" "function")))
  /\ (classify Expect.string
               (get_prop (JObject [("__proto__", JString "x")]) "__proto__") =
        pass (JString "x")
      /\ classify (Expect.object [("__proto__", Expect.string)])
                  (JObject [("__proto__", JString "x")]) =
         pass (JObject [])).
Proof.
  repeat split. intros key validator [].
Qed.

Lemma get_prop_own (props : list (string * value)) (key : string) (v : value) :
  lookup key props = Some v -> get_prop (JObject props) key = v.
Proof.
  intro H. unfold get_prop, own_prop. rewrite H. reflexivity.
Qed.

(** C4, amended. For every fields descriptor (an object: its names are
    distinct) that does not declare the name [__proto__] and every input
    that is an object and not null, when the child validator of every
    declared field passes on the property of that name the object
    validator passes with an object built from the empty one: its own
    names are the declared names, no other and none twice, each with the
    validated value of its child, so names of the input that are not
    declared are no properties of the output.  The child of a declared
    name that the input neither has nor inherits is run on [undefined]. *)
Theorem object_pass_declared_fields (fields : Fields) (data : value) :
  Forall (fun entry => is_validator (snd entry)) fields ->
  NoDup (map fst fields) ->
  ~ In "__proto__" (map fst fields) ->
  typeof data = "object" -> data <> JNull ->
  (forall key validator,
      In (key, validator) fields ->
      exists v, classify validator (get_prop data key) = pass v) ->
  exists out,
    classify (Expect.object fields) data = pass (JObject out)
    /\ out = map (validated_entry data) (for_in fields)
    /\ Permutation (map fst out) (map fst fields)
    /\ NoDup (map fst out)
    /\ (forall key validator,
          In (key, validator) fields ->
          classify validator (get_prop data key) =
          pass (get_prop (JObject out) key)
          /\ lookup key out = Some (get_prop (JObject out) key))
    /\ (forall key,
          ~ In key (map fst fields) ->
          ~ In key (map fst out) /\ lookup key out = None)
    /\ (forall key validator,
          In (key, validator) fields ->
          own_prop data key = None -> inherited data key = None ->
          classify validator JUndefined =
          pass (get_prop (JObject out) key)).
Proof.
  intros Hvalid Hnodup Hproto Htype Hnull Hpass.
  assert (P := for_in_Permutation fields).
  assert (Pk : Permutation (map fst (for_in fields)) (map fst fields))
    by (apply Permutation_map, P).
  assert (Nk : NoDup (map fst (for_in fields)))
    by (apply (Permutation_NoDup (Permutation_sym Pk)), Hnodup).
  assert (Own : forall key validator,
             In (key, validator) fields ->
             lookup key (map (validated_entry data) (for_in fields)) =
             Some (validated validator (get_prop data key))).
  { intros key validator Hin.
    apply lookup_In_NoDup.
    - rewrite map_fst_validated_entry. exact Nk.
    - apply (in_map (validated_entry data) (for_in fields) (key, validator)).
      apply (Permutation_in _ (Permutation_sym P)), Hin. }
  assert (Val : forall key validator,
             In (key, validator) fields ->
             classify validator (get_prop data key) =
             pass (get_prop (JObject (map (validated_entry data)
                                          (for_in fields))) key)).
  { intros key validator Hin.
    rewrite (get_prop_own _ _ (Own key validator Hin)).
    destruct (Hpass key validator Hin) as [v Hv].
    unfold validated. rewrite Hv. reflexivity. }
  exists (map (validated_entry data) (for_in fields)).
  rewrite map_fst_validated_entry.
  split; [| split; [reflexivity | split; [exact Pk | split; [exact Nk |]]]].
  - rewrite classify_object by assumption.
    rewrite object_for_in_check_fields.
    + rewrite check_fields_pass; [reflexivity | | | exact Nk].
      * intro Hin. apply Hproto. apply (Permutation_in _ Pk), Hin.
      * intros k v Hin. apply Hpass. apply (Permutation_in _ P), Hin.
    + apply (Permutation_Forall (Permutation_sym P)), Hvalid.
  - split; [| split].
    + intros key validator Hin. split; [apply Val, Hin |].
      rewrite (get_prop_own _ _ (Own key validator Hin)).
      apply Own, Hin.
    + intros key Hkey.
      assert (N : ~ In key (map fst (for_in fields))).
      { intro Hin. apply Hkey. apply (Permutation_in _ Pk), Hin. }
      split; [exact N |].
      apply lookup_not_In. rewrite map_fst_validated_entry. exact N.
    + intros key validator Hin Hown Hinh.
      rewrite <- (Val key validator Hin).
      unfold get_prop. rewrite Hown, Hinh. reflexivity.
Qed.

Lemma object_pass_declared_fields_witness :
  exists out,
    classify (Expect.object [("a", Expect.string); ("b", Expect.number)])
             (JObject [("a", JString "x"); ("b", one); ("c", JBoolean true)]) =
    pass (JObject out)
    /\ out = [("a", JString "x"); ("b", one)].
Proof.
  destruct (@object_pass_declared_fields
              [("a", Expect.string); ("b", Expect.number)]
              (JObject [("a", JString "x"); ("b", one);
                        ("c", JBoolean true)]))
    as (out & Hout & Heq & _).
  - repeat constructor; eexists; reflexivity.
  - repeat constructor; simpl; intuition discriminate.
  - simpl; intuition discriminate.
  - reflexivity.
  - discriminate.
  - intros key validator [E | [E | []]]; inversion E; subst;
      eexists; reflexivity.
  - exists out. split; [exact Hout | exact Heq].
Defined.

(** ** Validators built by the factory *)

Lemma Shape_induction (P : Shape -> Prop) :
  (forall p, P (SPrimitive p)) ->
  (forall fields,
      Forall (fun entry => P (snd entry)) fields -> P (SObject fields)) ->
  (forall item, P item -> P (SArray item)) ->
  (forall inner, P inner -> P (SOptional inner)) ->
  forall s, P s.
Proof.
  intros Hprimitive Hobject Harray Hoptional.
  refine (fix shape (s : Shape) : P s :=
            match s with
            | SPrimitive p => Hprimitive p
            | SObject fields =>
                Hobject fields
                  ((fix each (l : list (string * Shape))
                      : Forall (fun entry => P (snd entry)) l :=
                      match l with
                      | [] => Forall_nil _
                      | entry :: rest =>
                          Forall_cons entry (shape (snd entry)) (each rest)
                      end) fields)
            | SArray item => Harray item (shape item)
            | SOptional inner => Hoptional inner (shape inner)
            end).
Qed.

Lemma build_is_validator (s : Shape) : is_validator (build s).
Proof.
  destruct s as [[] | | |]; simpl;
    unfold Expect.boolean, Expect.number, Expect.string, Expect.null,
      Expect.object, Expect.array, Expect.optional;
    auto with validators.
Qed.

Lemma classify_primitive (p : primitive) (input out : value) :
  classify (primitive_validator p) input = pass out -> out = input.
Proof.
  destruct p;
    unfold primitive_validator,
      Expect.boolean, Expect.number, Expect.string, Expect.null;
    rewrite classify_toValidator; unfold expecting, expectingNull;
    match goal with
    | |- context [if ?c then _ else _] => destruct c
    end; congruence.
Qed.

Lemma classify_array_inv (toResult : ToResult) (input out : value) :
  classify (Expect.array (toValidator toResult)) input = pass out ->
  exists elements values,
    input = JArray elements /\ out = JArray values
    /\ Forall2 (fun x v => toResult x = pass v) elements values.
Proof.
  intro H.
  destruct input as [| | | | | | | | elements |];
    try (unfold Expect.array in H; rewrite classify_toValidator in H;
         discriminate H).
  rewrite expectingArray_check_elements in H.
  destruct (check_elements_pass_inv _ _ _ _ H) as (values & -> & Hall).
  exists elements, values. repeat split. exact Hall.
Qed.

Lemma classify_object_inv (fields : Fields) (input out : value) :
  classify (Expect.object fields) input = pass out ->
  typeof input = "object" /\ input <> JNull
  /\ object_for_in (for_in fields) input
       {| ObjectVars.obj := []; ObjectVars.reason := None |} = pass out.
Proof.
  unfold Expect.object. rewrite classify_toValidator. unfold expectingObject.
  destruct (negb (typeof input =? "object") || isNull input) eqn:G;
    [discriminate |].
  apply orb_false_elim in G. destruct G as [Gtype Gnull].
  apply negb_false_iff, String.eqb_eq in Gtype.
  intro H. repeat split; try assumption.
  intros ->. discriminate Gnull.
Qed.

(** A property of the values that pass holds of every property of the
    object that the loop builds. *)
Lemma check_fields_invariant (Q : string -> value -> Prop) (data : value)
    (entries : Fields) :
  (forall k v y, In (k, v) entries ->
                 classify v (get_prop data k) = pass y -> Q k y) ->
  forall obj out,
    (forall k y, In (k, y) obj -> Q k y) ->
    check_fields entries data obj = pass out ->
    exists props, out = JObject props /\ forall k y, In (k, y) props -> Q k y.
Proof.
  induction entries as [| [key validator] rest IH];
    intros Hentries obj out Hobj H; simpl in H.
  - exists obj. split; [congruence | exact Hobj].
  - destruct (classify validator (get_prop data key)) as [y |] eqn:Hy;
      [| discriminate H].
    apply (IH (fun k v y' Hin => Hentries k v y' (or_intror Hin))
              (set_prop obj key y) out); [| exact H].
    intros k y' Hin.
    destruct (set_prop_In _ _ _ _ _ Hin) as [E | Hin'].
    + injection E as Ek Ey. rewrite Ek, Ey.
      apply (Hentries key validator y).
      * left; reflexivity.
      * exact Hy.
    + apply Hobj, Hin'.
Qed.

Lemma well_formed_object (fields : list (string * Shape)) :
  well_formed (SObject fields) ->
  NoDup (map fst fields)
  /\ ~ In "__proto__" (map fst fields)
  /\ forall k s', In (k, s') fields -> well_formed s'.
Proof.
  intros (Hnodup & Hproto & Heach).
  split; [exact Hnodup | split; [exact Hproto |]].
  clear Hnodup Hproto.
  induction fields as [| [k0 s0] rest IH]; intros k s' Hin.
  - contradiction.
  - destruct Heach as [H0 Hrest]. destruct Hin as [E | Hin].
    + injection E as <- <-. exact H0.
    + apply (IH Hrest k s' Hin).
Qed.

Lemma built_fields (fields : list (string * Shape)) (k : string)
    (v : Validator) :
  In (k, v) (for_in (map (fun entry : string * Shape =>
                            match entry with
                            | (key, s') => (key, build s')
                            end) fields)) ->
  exists s', In (k, s') fields /\ v = build s'.
Proof.
  intro Hin.
  apply (Permutation_in _ (for_in_Permutation _)) in Hin.
  apply in_map_iff in Hin. destruct Hin as ([k' s'] & E & Hin).
  injection E as -> <-. exists s'. split; [exact Hin | reflexivity].
Qed.

Lemma built_fields_validators (fields : list (string * Shape)) :
  Forall (fun entry => is_validator (snd entry))
    (for_in (map (fun entry : string * Shape =>
                    match entry with
                    | (key, s') => (key, build s')
                    end) fields)).
Proof.
  apply Forall_forall. intros [k v] Hin.
  destruct (built_fields _ _ _ Hin) as (s' & _ & ->).
  apply build_is_validator.
Qed.

Lemma built_fields_names (fields : list (string * Shape)) :
  map fst (map (fun entry : string * Shape =>
                  match entry with
                  | (key, s') => (key, build s')
                  end) fields) = map fst fields.
Proof.
  rewrite map_map. apply map_ext. intros [k s']; reflexivity.
Qed.

Lemma check_fields_pass_inv (data : value) (entries : Fields) :
  forall obj out,
    check_fields entries data obj = pass out ->
    forall k v, In (k, v) entries ->
                exists y, classify v (get_prop data k) = pass y.
Proof.
  induction entries as [| [key validator] rest IH];
    intros obj out H k v Hin; simpl in H.
  - contradiction.
  - destruct (classify validator (get_prop data key)) as [y |] eqn:Hy;
      [| discriminate H].
    destruct Hin as [E | Hin].
    + injection E as <- <-. exists y; exact Hy.
    + apply (IH _ _ H k v Hin).
Qed.

(** The output of a well-formed object validator, and its properties. *)
Lemma classify_built_object (fields : list (string * Shape)) (input out : value) :
  NoDup (map fst fields) -> ~ In "__proto__" (map fst fields) ->
  classify (build (SObject fields)) input = pass out ->
  typeof input = "object" /\ input <> JNull
  /\ exists props,
       out = JObject props
       /\ props = map (validated_entry input)
                      (for_in (map (fun entry : string * Shape =>
                                      match entry with
                                      | (key, s') => (key, build s')
                                      end) fields))
       /\ Permutation (map fst props) (map fst fields)
       /\ forall key s',
            In (key, s') fields ->
            exists v, lookup key props = Some v
                      /\ classify (build s') (get_prop input key) = pass v.
Proof.
  intros Hnodup Hproto H. cbn [build] in H.
  set (built := map (fun entry : string * Shape =>
                       match entry with (key, s') => (key, build s') end)
                    fields) in H.
  assert (Pk : Permutation (map fst (for_in built)) (map fst fields)).
  { rewrite <- (built_fields_names fields).
    apply Permutation_map, for_in_Permutation. }
  assert (Nb : NoDup (map fst (for_in built)))
    by (apply (Permutation_NoDup (Permutation_sym Pk)), Hnodup).
  apply classify_object_inv in H. destruct H as (Htype & Hnull & H).
  rewrite object_for_in_check_fields in H by apply built_fields_validators.
  assert (Hpass := @check_fields_pass_inv input (for_in built) [] _ H).
  rewrite check_fields_pass in H; try assumption.
  - injection H as <-. cbn [app].
    split; [exact Htype | split; [exact Hnull |]].
    exists (map (validated_entry input) (for_in built)).
    rewrite map_fst_validated_entry.
    split; [reflexivity | split; [reflexivity | split; [exact Pk |]]].
    intros key s' Hin.
    assert (Hb : In (key, build s') (for_in built)).
    { apply (Permutation_in _ (Permutation_sym (for_in_Permutation built))).
      apply (in_map (fun entry : string * Shape =>
                       match entry with (k, s0) => (k, build s0) end)
                    fields (key, s')), Hin. }
    destruct (Hpass key (build s') Hb) as [y Hy].
    exists y. split; [| exact Hy].
    rewrite (lookup_In_NoDup (map (validated_entry input) (for_in built))
               key (validated (build s') (get_prop input key))).
    + unfold validated. rewrite Hy. reflexivity.
    + rewrite map_fst_validated_entry. exact Nb.
    + apply (in_map (validated_entry input) (for_in built) (key, build s')), Hb.
  - intro Hin. apply Hproto. apply (Permutation_in _ Pk), Hin.
Qed.





(** ** The tests of the repository, on the model *)

Example test_Expect_boolean :
  worksWith Expect.boolean (JBoolean true) = true
  /\ worksWith Expect.boolean (JBoolean false) = true
  /\ worksWith Expect.boolean JUndefined = false
  /\ worksWith Expect.boolean (JString "true") = false
  /\ worksWith Expect.boolean JNull = false
  /\ worksWith Expect.boolean zero = false.
Proof. repeat split. Qed.

Example test_Expect_number :
  worksWith Expect.number (number 123 0) = true
  /\ worksWith Expect.number (number 5 (-1)) = true
  /\ worksWith Expect.number (number (-12) 0) = true
  /\ worksWith Expect.number zero = true
  /\ worksWith Expect.number (JString "12") = false
  /\ worksWith Expect.number JNull = false.
Proof. repeat split. Qed.

Example test_Expect_string :
  worksWith Expect.string (JString "123") = true
  /\ worksWith Expect.string (JString "true") = true
  /\ worksWith Expect.string (number 123 0) = false
  /\ worksWith Expect.string (JBoolean true) = false
  /\ worksWith Expect.string JUndefined = false
  /\ worksWith Expect.string JNull = false.
Proof. repeat split. Qed.

Example test_Expect_null :
  worksWith Expect.null JNull = true
  /\ worksWith Expect.null JUndefined = false
  /\ worksWith Expect.null (JString "null") = false
  /\ worksWith Expect.null (JBoolean false) = false
  /\ worksWith Expect.null zero = false.
Proof. repeat split. Qed.

Example test_Expect_object :
  worksWith person
    (JObject [("name", JString "alexa"); ("age", number 93 0)]) = true
  /\ worksWith person
       (JObject [("name", JString "ryan"); ("age", number 26 0)]) = true
  /\ worksWith person
       (JObject [("name", JString "ryan"); ("age", JString "26")]) = false
  /\ worksWith person
       (JObject [("nam", JString "ryan"); ("age", number 26 0)]) = false
  /\ worksWith person (JObject [("name", JString "ryan")]) = false
  /\ worksWith person (JObject [("age", number 26 0)]) = false
  /\ worksWith person JNull = false.
Proof. repeat split. Qed.

Example test_Expect_array :
  worksWith (Expect.array Expect.number) (JArray []) = true
  /\ worksWith (Expect.array Expect.number) (JArray [one; two; three]) = true
  /\ worksWith (Expect.array Expect.number) (JArray [one; JNull; three]) = false
  /\ worksWith (Expect.array Expect.number)
       (JArray [one; two; JString "3"]) = false
  /\ worksWith (Expect.array Expect.number) JNull = false.
Proof. repeat split. Qed.

Example test_Expect_optional :
  worksWith (Expect.optional Expect.number) (number 123 0) = true
  /\ worksWith (Expect.optional Expect.number) (number 456 0) = true
  /\ worksWith (Expect.optional Expect.number) JNull = true
  /\ worksWith (Expect.optional Expect.number) JUndefined = true
  /\ worksWith (Expect.optional Expect.number) (JBoolean true) = true.
Proof. repeat split. Qed.

(** A missing field is reported with the type name of [undefined], and
    the problem of a nested element carries its whole path. *)
Example missing_field :
  classify (Expect.object [("a", Expect.string); ("b", Expect.number)])
           (JObject [("a", JString "x")]) =
  fail (problemWithField "b" (expectation "number" "undefined")).
Proof. reflexivity. Qed.

Example nested_path :
  classify (Expect.object [("people", Expect.array person)])
           (JObject [("people",
                      JArray [JObject [("name", JString "ryan");
                                       ("age", number 26 0)];
                              JObject [("name", JString "alexa");
                                       ("age", JString "93")]])]) =
  fail (problemWithField "people"
          (problemWithIndex 1
             (problemWithField "age" (expectation "number" "string")))).
Proof. reflexivity. Qed.

(** * Further properties of the code *)

(** ** src/utils.ts *)

Lemma typeOf_array (data : value) :
  Utils.typeOf data = "array" <-> instanceofArray data = true.
Proof.
  destruct data; simpl; split; intro H; try discriminate H; reflexivity.
Qed.

(** X1. [Utils.typeOf] refines [typeof]: it gives [array] exactly for
    arrays and [null] exactly for null, agrees with [typeof] on every
    other value, and so gives [object] exactly for the values other than
    arrays and null whose [typeof] is [object]; [typeof] gives [object]
    exactly when [Utils.typeOf] gives [object], [array] or [null]. *)
Theorem typeOf_refines_typeof (data : value) :
  (Utils.typeOf data = "array" <-> instanceofArray data = true)
  /\ (Utils.typeOf data = "null" <-> data = JNull)
  /\ (instanceofArray data = false -> data <> JNull ->
      Utils.typeOf data = typeof data)
  /\ (Utils.typeOf data = "object" <->
      typeof data = "object" /\ instanceofArray data = false
      /\ data <> JNull)
  /\ (typeof data = "object" <->
      Utils.typeOf data = "object" \/ Utils.typeOf data = "array"
      \/ Utils.typeOf data = "null").
Proof.
  split; [apply typeOf_array | split; [apply typeOf_null |]].
  split; [| split; split].
  - intros Harray Hnull.
    destruct data; try reflexivity; [contradiction | discriminate Harray].
  - destruct data; simpl; intro H; try discriminate H.
    repeat split. discriminate.
  - intros (Htype & Harray & Hnull).
    destruct data; simpl in *; try discriminate; try reflexivity.
    contradiction.
  - destruct data; simpl; intro H; try discriminate H; auto.
  - destruct data; simpl; intros [H | [H | H]];
      try discriminate H; reflexivity.
Qed.

Lemma typeOf_refines_typeof_witness :
  Utils.typeOf (JObject []) = typeof (JObject [])
  /\ Utils.typeOf JUndefined = typeof JUndefined.
Proof.
  split.
  - apply (proj1 (proj2 (proj2 (typeOf_refines_typeof (JObject []))))).
    + reflexivity.
    + discriminate.
  - apply (proj1 (proj2 (proj2 (typeOf_refines_typeof JUndefined)))).
    + reflexivity.
    + discriminate.
Defined.

(** ** Primitive validators, by type name *)

(** X2. A primitive validator decides by the type name of
    [Utils.typeOf], though [expecting] tests [typeof] and [expectingNull]
    tests identity with null: it passes with the input itself when the
    type name is the expected one, and otherwise fails with the
    expectation of the expected name that got the type name, two names
    that differ. *)
Theorem primitive_outcome (p : primitive) (data : value) :
  classify (primitive_validator p) data =
  (if Utils.typeOf data =? expected_name p
   then pass data
   else fail (expectation (expected_name p) (Utils.typeOf data)))
  /\ (forall problem,
        classify (primitive_validator p) data = fail problem ->
        problem = expectation (expected_name p) (Utils.typeOf data)
        /\ expected_name p <> Utils.typeOf data).
Proof.
  assert (E : classify (primitive_validator p) data =
              if Utils.typeOf data =? expected_name p
              then pass data
              else fail (expectation (expected_name p) (Utils.typeOf data))).
  { destruct p, data; reflexivity. }
  split; [exact E |].
  intros problem H. rewrite E in H.
  destruct (String.eqb_spec (Utils.typeOf data) (expected_name p)) as [_ | N];
    [discriminate H |].
  split; [congruence | intro E'; apply N; symmetry; exact E'].
Qed.

Lemma primitive_outcome_witness :
  expectation "number" "string" =
    expectation (expected_name PNumber) (Utils.typeOf (JString "12"))
  /\ expected_name PNumber <> Utils.typeOf (JString "12").
Proof.
  apply (proj2 (primitive_outcome PNumber (JString "12"))
           (expectation "number" "string")).
  reflexivity.
Defined.

(** ** More on the array combinator *)

Lemma check_elements_fail_inv (toResult : ToResult) (elements : list value) :
  forall index acc problem,
    check_elements toResult elements index acc = fail problem ->
    exists before values x after reason,
      elements = before ++ x :: after
      /\ Forall2 (fun y v => toResult y = pass v) before values
      /\ toResult x = fail reason
      /\ problem = problemWithIndex (index + length before) reason.
Proof.
  induction elements as [| y rest IH]; intros index acc problem H; simpl in H.
  - discriminate H.
  - destruct (toResult y) as [v | reason] eqn:Hy.
    + destruct (IH _ _ _ H)
        as (before & values & x & after & reason & -> & Hall & Hx & ->).
      exists (y :: before), (v :: values), x, after, reason.
      repeat split; try assumption.
      * constructor; assumption.
      * simpl. f_equal. lia.
    + exists [], [], y, rest, reason.
      repeat split; try assumption; [constructor |].
      simpl. rewrite Nat.add_0_r. congruence.
Qed.

Lemma passes_Forall2 (toResult : ToResult) (elements : list value) :
  Forall (fun x => exists v, toResult x = pass v) elements ->
  exists values, Forall2 (fun x v => toResult x = pass v) elements values.
Proof.
  induction 1 as [| x rest [v Hx] _ [values IH]].
  - exists []. constructor.
  - exists (v :: values). constructor; assumption.
Qed.

Lemma Forall2_passes (toResult : ToResult) (elements values : list value) :
  Forall2 (fun x v => toResult x = pass v) elements values ->
  Forall (fun x => exists v, toResult x = pass v) elements.
Proof.
  induction 1 as [| x v rest values Hx _ IH]; constructor.
  - exists v; exact Hx.
  - exact IH.
Qed.

Lemma worksWith_toValidator (toResult : ToResult) (data : value) :
  worksWith (toValidator toResult) data = true <->
  exists v, toResult data = pass v.
Proof.
  simpl. destruct (toResult data) as [v | reason]; split.
  - intros _. exists v; reflexivity.
  - reflexivity.
  - discriminate.
  - intros [v H]; discriminate H.
Qed.

(** X3. An array validator works with a value exactly when the value is
    an array and the child validator works with each of its elements. *)
Theorem array_worksWith_iff (toResult : ToResult) (data : value) :
  worksWith (Expect.array (toValidator toResult)) data = true <->
  exists elements,
    data = JArray elements
    /\ Forall (fun x => worksWith (toValidator toResult) x = true) elements.
Proof.
  unfold Expect.array at 1. rewrite worksWith_toValidator.
  fold (Expect.array (toValidator toResult)). split.
  - intros [out H].
    assert (C : classify (Expect.array (toValidator toResult)) data = pass out).
    { unfold Expect.array. rewrite classify_toValidator. exact H. }
    apply classify_array_inv in C.
    destruct C as (elements & values & -> & _ & Hall).
    exists elements. split; [reflexivity |].
    apply Forall2_passes in Hall.
    eapply Forall_impl; [| exact Hall].
    intros x Hx. apply worksWith_toValidator, Hx.
  - intros (elements & -> & Hall).
    assert (P : Forall (fun x => exists v, toResult x = pass v) elements).
    { eapply Forall_impl; [| exact Hall].
      intros x Hx. apply worksWith_toValidator, Hx. }
    apply passes_Forall2 in P. destruct P as [values Hvalues].
    exists (JArray values).
    assert (C := expectingArray_check_elements toResult elements).
    unfold Expect.array in C. rewrite classify_toValidator in C.
    rewrite C. apply check_elements_pass with (index := 0) (acc := []).
    exact Hvalues.
Qed.

(** X4. When an array validator fails, either the input is not an array
    and the problem is the expectation of an array that got the type name
    of the input, or the problem is at a position of the array: the child
    passes on all the elements before it and fails on the element at it
    with the inner problem. *)
Theorem array_failure (toResult : ToResult) (data : value)
    (problem : Problem) :
  classify (Expect.array (toValidator toResult)) data = fail problem ->
  (instanceofArray data = false
   /\ problem = expectation "array" (Utils.typeOf data)
   /\ Utils.typeOf data <> "array")
  \/ (exists before values x after reason,
        data = JArray (before ++ x :: after)
        /\ Forall2 (fun y v => toResult y = pass v) before values
        /\ toResult x = fail reason
        /\ problem = problemWithIndex (length before) reason
        /\ length before < length (before ++ x :: after)).
Proof.
  intro H.
  destruct (instanceofArray data) eqn:A.
  - right. destruct data; try discriminate A.
    rewrite expectingArray_check_elements in H.
    apply check_elements_fail_inv in H.
    destruct H as (before & values & x & after & reason & -> & Hall & Hx & ->).
    exists before, values, x, after, reason.
    repeat split; try assumption.
    rewrite length_app. simpl. lia.
  - left. split; [reflexivity |].
    unfold Expect.array in H. rewrite classify_toValidator in H.
    split.
    + destruct data; try discriminate A; simpl in H; congruence.
    + intro T. apply typeOf_array in T. congruence.
Qed.

Lemma array_failure_witness :
  (instanceofArray JNull = false
   /\ expectation "array" "null" = expectation "array" (Utils.typeOf JNull)
   /\ Utils.typeOf JNull <> "array")
  \/ (exists before values x after reason,
        JNull = JArray (before ++ x :: after)
        /\ Forall2 (fun y v => expecting "number" y = pass v) before values
        /\ expecting "number" x = fail reason
        /\ expectation "array" "null" = problemWithIndex (length before) reason
        /\ length before < length (before ++ x :: after)).
Proof.
  apply (@array_failure (expecting "number") JNull (expectation "array" "null")).
  reflexivity.
Defined.

(** X5. Array validation goes along with concatenation.  When the
    validator passes on two arrays it passes on their concatenation with
    the concatenation of the outputs; a failure on the first array is the
    failure on the concatenation; and when it passes on the first array
    and fails on the second, it fails on the concatenation at a position
    moved by the length of the first. *)
Theorem array_concatenation (toResult : ToResult) (xs ys : list value) :
  (forall out1 out2,
      classify (Expect.array (toValidator toResult)) (JArray xs) =
        pass (JArray out1) ->
      classify (Expect.array (toValidator toResult)) (JArray ys) =
        pass (JArray out2) ->
      classify (Expect.array (toValidator toResult)) (JArray (xs ++ ys)) =
        pass (JArray (out1 ++ out2)))
  /\ (forall problem,
      classify (Expect.array (toValidator toResult)) (JArray xs) =
        fail problem ->
      classify (Expect.array (toValidator toResult)) (JArray (xs ++ ys)) =
        fail problem)
  /\ (forall out1 index reason,
      classify (Expect.array (toValidator toResult)) (JArray xs) =
        pass (JArray out1) ->
      classify (Expect.array (toValidator toResult)) (JArray ys) =
        fail (problemWithIndex index reason) ->
      classify (Expect.array (toValidator toResult)) (JArray (xs ++ ys)) =
        fail (problemWithIndex (length xs + index) reason)).
Proof.
  rewrite !expectingArray_check_elements.
  repeat split.
  - intros out1 out2 H1 H2.
    apply check_elements_pass_inv in H1. destruct H1 as (v1 & E1 & A1).
    apply check_elements_pass_inv in H2. destruct H2 as (v2 & E2 & A2).
    simpl in E1, E2. injection E1 as ->. injection E2 as ->.
    apply check_elements_pass with (index := 0) (acc := []).
    apply Forall2_app; assumption.
  - intros problem H.
    apply check_elements_fail_inv in H.
    destruct H as (before & values & x & after & reason & -> & Hall & Hx & ->).
    rewrite <- app_assoc. simpl.
    apply check_elements_fail with (values := values); assumption.
  - intros out1 index reason H1 H2.
    apply check_elements_pass_inv in H1. destruct H1 as (v1 & E1 & A1).
    simpl in E1. injection E1 as ->.
    apply check_elements_fail_inv in H2.
    destruct H2 as (before & values & x & after & r & -> & Hall & Hx & E).
    simpl in E. injection E as -> ->.
    rewrite app_assoc.
    replace (length xs + length before) with (0 + length (xs ++ before))
      by (rewrite length_app; reflexivity).
    apply check_elements_fail with (values := v1 ++ values);
      [apply Forall2_app |]; assumption.
Qed.

Lemma array_concatenation_witness :
  classify (Expect.array Expect.number) (JArray ([one] ++ [two; JNull])) =
  fail (problemWithIndex (length [one] + 1) (expectation "number" "null")).
Proof.
  apply (proj2 (proj2 (array_concatenation (expecting "number")
                         [one] [two; JNull])) [one]).
  - reflexivity.
  - reflexivity.
Defined.

(** ** More on the object combinator *)


Lemma check_fields_passes (data : value) (entries : Fields) :
  (forall k v, In (k, v) entries ->
               exists y, classify v (get_prop data k) = pass y) ->
  forall obj, exists out, check_fields entries data obj = pass out.
Proof.
  induction entries as [| [key validator] rest IH]; intros Hpass obj; simpl.
  - eexists; reflexivity.
  - destruct (Hpass key validator (or_introl eq_refl)) as [y ->].
    apply IH. intros k v Hin. apply Hpass. right; exact Hin.
Qed.

Lemma check_fields_fail_inv (data : value) (entries : Fields) :
  forall obj problem,
    check_fields entries data obj = fail problem ->
    exists pre key validator post reason,
      entries = pre ++ (key, validator) :: post
      /\ (forall k v, In (k, v) pre ->
                      exists y, classify v (get_prop data k) = pass y)
      /\ classify validator (get_prop data key) = fail reason
      /\ problem = problemWithField key reason.
Proof.
  induction entries as [| [key validator] rest IH];
    intros obj problem H; simpl in H.
  - discriminate H.
  - destruct (classify validator (get_prop data key)) as [y | reason] eqn:Hy.
    + destruct (IH _ _ H)
        as (pre & k & v & post & r & -> & Hpre & Hk & ->).
      exists ((key, validator) :: pre), k, v, post, r.
      repeat split; try assumption.
      intros k' v' [E | Hin].
      * injection E as <- <-. exists y; exact Hy.
      * apply Hpre, Hin.
    + exists [], key, validator, rest, reason.
      repeat split; try assumption; [intros k v [] | congruence].
Qed.

Lemma classify_object_rejected (fields : Fields) (data : value) :
  negb (typeof data =? "object") || isNull data = true ->
  classify (Expect.object fields) data =
  fail (expectation "object" (Utils.typeOf data))
  /\ Utils.typeOf data <> "object" /\ Utils.typeOf data <> "array".
Proof.
  intro G. unfold Expect.object. rewrite classify_toValidator.
  unfold expectingObject. rewrite G.
  split; [reflexivity |].
  destruct data; simpl in *; try discriminate G; split; discriminate.
Qed.

Lemma object_guard_cases (data : value) :
  (typeof data = "object" /\ data <> JNull)
  \/ negb (typeof data =? "object") || isNull data = true.
Proof.
  destruct data; simpl; auto; left; split; try reflexivity; discriminate.
Qed.

Lemma worksWith_passes (validator : Validator) (data : value) :
  is_validator validator ->
  worksWith validator data = true <->
  exists y, classify validator data = pass y.
Proof.
  intro V. rewrite worksWith_is_validator by exact V.
  destruct (classify validator data) as [y | reason]; split.
  - intros _. exists y; reflexivity.
  - reflexivity.
  - discriminate.
  - intros [y H]; discriminate H.
Qed.

Lemma object_passes_iff (fields : Fields) (data : value) :
  Forall (fun entry => is_validator (snd entry)) fields ->
  worksWith (Expect.object fields) data = true <->
  typeof data = "object" /\ data <> JNull
  /\ forall k v, In (k, v) fields -> worksWith v (get_prop data k) = true.
Proof.
  intro V.
  assert (Vv : forall k v, In (k, v) fields -> is_validator v).
  { intros k v Hin. rewrite Forall_forall in V. apply (V (k, v) Hin). }
  assert (Vf : Forall (fun entry => is_validator (snd entry)) (for_in fields)).
  { apply (Permutation_Forall (Permutation_sym (for_in_Permutation fields))), V. }
  rewrite worksWith_passes by (unfold Expect.object; auto with validators).
  split.
  - intros [out H].
    destruct (object_guard_cases data) as [[Htype Hnull] | G].
    + split; [exact Htype | split; [exact Hnull |]].
      rewrite classify_object in H by assumption.
      rewrite object_for_in_check_fields in H by exact Vf.
      intros k v Hin. apply worksWith_passes; [apply (Vv k v Hin) |].
      apply (check_fields_pass_inv _ _ _ H).
      apply (Permutation_in _ (Permutation_sym (for_in_Permutation fields))), Hin.
    + destruct (classify_object_rejected fields data G) as [E _].
      rewrite E in H. discriminate H.
  - intros (Htype & Hnull & Hall).
    rewrite classify_object by assumption.
    rewrite object_for_in_check_fields by exact Vf.
    apply check_fields_passes. intros k v Hin.
    apply (Permutation_in _ (for_in_Permutation fields)) in Hin.
    apply worksWith_passes; [apply (Vv k v Hin) | apply Hall, Hin].
Qed.

(** X6. An object validator works with a value exactly when the value is
    an object, not null, and the child validator of every declared field
    works with the property of that name; so the order in which the
    fields are declared does not change what the validator accepts. *)
Theorem object_worksWith_iff (fields : Fields) (data : value) :
  Forall (fun entry => is_validator (snd entry)) fields ->
  (worksWith (Expect.object fields) data = true <->
   typeof data = "object" /\ data <> JNull
   /\ forall k v, In (k, v) fields -> worksWith v (get_prop data k) = true)
  /\ (forall fields',
        Permutation fields fields' ->
        worksWith (Expect.object fields') data =
        worksWith (Expect.object fields) data).
Proof.
  intro V. split; [apply object_passes_iff, V |].
  intros fields' P.
  assert (I := object_passes_iff data V).
  assert (I' := object_passes_iff data (Permutation_Forall P V)).
  assert (S : worksWith (Expect.object fields') data = true <->
              worksWith (Expect.object fields) data = true).
  { rewrite I, I'. split; intros (Htype & Hnull & Hall);
      (split; [exact Htype | split; [exact Hnull |]]); intros k v Hin;
      apply Hall.
    - apply (Permutation_in _ P), Hin.
    - apply (Permutation_in _ (Permutation_sym P)), Hin. }
  destruct (worksWith (Expect.object fields') data),
           (worksWith (Expect.object fields) data); try reflexivity.
  - symmetry. apply S. reflexivity.
  - apply S. reflexivity.
Qed.

Lemma object_worksWith_iff_witness :
  worksWith (Expect.object [("age", Expect.number); ("name", Expect.string)])
            (JObject [("name", JString "ryan"); ("age", one)]) =
  worksWith (Expect.object [("name", Expect.string); ("age", Expect.number)])
            (JObject [("name", JString "ryan"); ("age", one)]).
Proof.
  apply (proj2 (@object_worksWith_iff
                  [("name", Expect.string); ("age", Expect.number)]
                  (JObject [("name", JString "ryan"); ("age", one)])
                  ltac:(repeat constructor; eexists; reflexivity))).
  apply perm_swap.
Defined.

(** X7. When an object validator fails, either the input is rejected at
    the guard, with the expectation of an object that got the type name of
    the input, a name that is neither [object] nor [array]; or the input
    is an object and the problem is on a declared field: the children of
    the fields visited before it pass, and its own child fails on the
    property of that name with the inner problem. *)
Theorem object_failure (fields : Fields) (data : value) (problem : Problem) :
  Forall (fun entry => is_validator (snd entry)) fields ->
  classify (Expect.object fields) data = fail problem ->
  (problem = expectation "object" (Utils.typeOf data)
   /\ Utils.typeOf data <> "object" /\ Utils.typeOf data <> "array")
  \/ (typeof data = "object" /\ data <> JNull
      /\ exists pre key validator post reason,
           for_in fields = pre ++ (key, validator) :: post
           /\ In (key, validator) fields
           /\ (forall k v, In (k, v) pre ->
                           exists y, classify v (get_prop data k) = pass y)
           /\ classify validator (get_prop data key) = fail reason
           /\ problem = problemWithField key reason).
Proof.
  intros V H.
  destruct (object_guard_cases data) as [[Htype Hnull] | G].
  - right. split; [exact Htype | split; [exact Hnull |]].
    rewrite classify_object in H by assumption.
    rewrite object_for_in_check_fields in H
      by (apply (Permutation_Forall
                   (Permutation_sym (for_in_Permutation fields))), V).
    apply check_fields_fail_inv in H.
    destruct H as (pre & key & validator & post & reason & E & Hpre & Hk & ->).
    exists pre, key, validator, post, reason.
    repeat split; try assumption.
    apply (Permutation_in _ (for_in_Permutation fields)).
    rewrite E. apply in_or_app. right; left; reflexivity.
  - left. destruct (classify_object_rejected fields data G) as (E & N1 & N2).
    rewrite E in H. repeat split; try assumption. congruence.
Qed.

Lemma object_failure_witness :
  (expectation "object" "null" = expectation "object" (Utils.typeOf JNull)
   /\ Utils.typeOf JNull <> "object" /\ Utils.typeOf JNull <> "array")
  \/ (typeof JNull = "object" /\ JNull <> JNull
      /\ exists pre key validator post reason,
           for_in [("name", Expect.string)] = pre ++ (key, validator) :: post
           /\ In (key, validator) [("name", Expect.string)]
           /\ (forall k v, In (k, v) pre ->
                           exists y, classify v (get_prop JNull k) = pass y)
           /\ classify validator (get_prop JNull key) = fail reason
           /\ expectation "object" "null" = problemWithField key reason).
Proof.
  apply (@object_failure [("name", Expect.string)] JNull
           (expectation "object" "null")).
  - repeat constructor. eexists; reflexivity.
  - reflexivity.
Defined.

Lemma object_for_in_ext (data data' : value) (entries : Fields) :
  (forall k, In k (map fst entries) -> get_prop data' k = get_prop data k) ->
  forall vars,
    object_for_in entries data' vars = object_for_in entries data vars.
Proof.
  induction entries as [| [key validator] rest IH]; intros H vars.
  - reflexivity.
  - cbn [object_for_in].
    rewrite (H key) by (left; reflexivity).
    match goal with
    | |- context [ObjectVars.reason ?v] => destruct (ObjectVars.reason v)
    end; [reflexivity |].
    apply IH. intros k Hin. apply H. right; exact Hin.
Qed.

Lemma lookup_define_prop_other (A : Type) (props : list (string * A))
    (key k : string) (a : A) :
  key <> k -> lookup k (define_prop props key a) = lookup k props.
Proof.
  intro N. induction props as [| [k' b] rest IH]; simpl.
  - destruct (String.eqb_spec key k); [contradiction | reflexivity].
  - destruct (String.eqb_spec k' key) as [-> | _]; simpl.
    + destruct (String.eqb_spec key k); [contradiction | reflexivity].
    + destruct (k' =? k); [reflexivity | exact IH].
Qed.

Lemma object_outcome_ext (fields : Fields) (data data' : value) :
  typeof data = "object" -> data <> JNull ->
  typeof data' = "object" -> data' <> JNull ->
  (forall k, In k (map fst fields) -> get_prop data' k = get_prop data k) ->
  classify (Expect.object fields) data' = classify (Expect.object fields) data.
Proof.
  intros Htype Hnull Htype' Hnull' H.
  rewrite !classify_object by assumption.
  apply object_for_in_ext. intros k Hin. apply H.
  apply (Permutation_in _ (Permutation_map fst (for_in_Permutation fields))).
  exact Hin.
Qed.

(** X8. An object validator reads of its input the declared properties
    only: two inputs that are objects, not null, and agree on every
    declared name have the same outcome, pass or fail, value or problem.
    So giving the input an own property of a name that is not declared,
    new or not, other than [__proto__], changes nothing. *)
Theorem object_reads_declared_only (fields : Fields) :
  (forall data data',
      typeof data = "object" -> data <> JNull ->
      typeof data' = "object" -> data' <> JNull ->
      (forall k, In k (map fst fields) -> get_prop data' k = get_prop data k) ->
      classify (Expect.object fields) data' =
      classify (Expect.object fields) data)
  /\ (forall props key v,
        ~ In key (map fst fields) ->
        key <> "__proto__" ->
        classify (Expect.object fields) (JObject (set_prop props key v)) =
        classify (Expect.object fields) (JObject props)).
Proof.
  split; [apply object_outcome_ext |].
  intros props key v N P.
  assert (E : set_prop props key v = define_prop props key v).
  { unfold set_prop.
    destruct (String.eqb_spec key "__proto__"); [contradiction | reflexivity]. }
  rewrite E.
  apply object_outcome_ext; try reflexivity; try discriminate.
  intros k Hin. unfold get_prop, own_prop, inherited.
  rewrite lookup_define_prop_other; [reflexivity |].
  intros ->. apply N, Hin.
Qed.

Lemma object_reads_declared_only_witness :
  classify person
    (JObject (set_prop [("name", JString "ryan"); ("age", one)]
                       "admin" (JBoolean true))) =
  classify person (JObject [("name", JString "ryan"); ("age", one)]).
Proof.
  apply (proj2 (object_reads_declared_only
                  [("name", Expect.string); ("age", Expect.number)])).
  - simpl. intuition discriminate.
  - discriminate.
Defined.

(** ** More on the validators built by the factory *)

Lemma classify_primitive_typeOf (p : primitive) (data : value) :
  classify (primitive_validator p) data =
  if Utils.typeOf data =? expected_name p
  then pass data
  else fail (expectation (expected_name p) (Utils.typeOf data)).
Proof. destruct p, data; reflexivity. Qed.


Lemma optional_never_fails (validator : Validator) (data : value)
    (problem : Problem) :
  is_validator validator ->
  classify (Expect.optional validator) data <> fail problem.
Proof.
  intros [toResult ->]. unfold Expect.optional.
  rewrite classify_toValidator, expectingOptional_toValidator. discriminate.
Qed.

(** X9. The problem a validator built by the factory reports points into
    the input: following its fields and indices from the input on leads
    to a value whose type name is the actual name of the innermost
    expectation, and that name differs from the expected one. *)
Theorem failure_path_sound (s : Shape) :
  forall input problem,
    classify (build s) input = fail problem ->
    snd (innermost problem) = Utils.typeOf (locate problem input)
    /\ fst (innermost problem) <> snd (innermost problem).
Proof.
  induction s as [p | fields IH | item IH | inner IH] using Shape_induction;
    intros input problem H.
  - cbn [build] in H. rewrite classify_primitive_typeOf in H.
    destruct (String.eqb_spec (Utils.typeOf input) (expected_name p))
      as [_ | N]; [discriminate H |].
    injection H as <-. simpl. split; [reflexivity | congruence].
  - cbn [build] in H.
    destruct (object_guard_cases input) as [[Htype Hnull] | G].
    + rewrite classify_object in H by assumption.
      rewrite object_for_in_check_fields in H
        by apply built_fields_validators.
      apply check_fields_fail_inv in H.
      destruct H as (pre & key & validator & post & reason & E & _ & Hk & ->).
      assert (Hin : In (key, validator) (pre ++ (key, validator) :: post))
        by (apply in_or_app; right; left; reflexivity).
      rewrite <- E in Hin.
      destruct (built_fields _ _ _ Hin) as (s' & Hs' & ->).
      rewrite Forall_forall in IH.
      apply (IH (key, s') Hs' (get_prop input key) reason Hk).
    + destruct (classify_object_rejected
                  (map (fun entry : string * Shape =>
                          match entry with (key, s') => (key, build s') end)
                       fields) input G) as (E & N & _).
      rewrite E in H. injection H as <-. simpl.
      split; [reflexivity | congruence].
  - cbn [build] in H.
    destruct (build_is_validator item) as [toResult E].
    rewrite E in H.
    destruct (instanceofArray input) eqn:A.
    + destruct input; try discriminate A.
      rewrite expectingArray_check_elements in H.
      apply check_elements_fail_inv in H.
      destruct H as (before & values & x & after & reason & -> & _ & Hx & ->).
      cbn [innermost locate read_index plus]. rewrite nth_middle.
      apply IH. rewrite E, classify_toValidator. exact Hx.
    + unfold Expect.array in H. rewrite classify_toValidator in H.
      assert (N : Utils.typeOf input <> "array").
      { intro T. apply typeOf_array in T. congruence. }
      destruct input; try discriminate A; simpl in H;
        injection H as <-; simpl; split;
        try reflexivity; discriminate.
  - cbn [build] in H. exfalso.
    apply (@optional_never_fails (build inner) input problem
             (build_is_validator inner)), H.
Qed.

Lemma failure_path_sound_witness :
  let input :=
    JObject [("people",
              JArray [JObject [("name", JString "ryan"); ("age", one)];
                      JObject [("name", JString "alexa");
                               ("age", JString "93")]])] in
  let problem :=
    problemWithField "people"
      (problemWithIndex 1
         (problemWithField "age" (expectation "number" "string"))) in
  snd (innermost problem) = Utils.typeOf (locate problem input)
  /\ fst (innermost problem) <> snd (innermost problem).
Proof.
  apply (failure_path_sound
           (SObject [("people",
                      SArray (SObject [("name", SPrimitive PString);
                                       ("age", SPrimitive PNumber)]))])).
  reflexivity.
Defined.


(** Of the validators of the factory only [optional] accepts
    [undefined], and it hands [undefined] on. *)
Lemma accepts_undefined (s : Shape) :
  forall out, classify (build s) JUndefined = pass out -> out = JUndefined.
Proof.
  induction s as [p | fields _ | item _ | inner IH] using Shape_induction;
    intros out H; cbn [build] in H.
  - apply classify_primitive in H. exact H.
  - unfold Expect.object in H. rewrite classify_toValidator in H.
    discriminate H.
  - unfold Expect.array in H. rewrite classify_toValidator in H.
    discriminate H.
  - destruct (build_is_validator inner) as [toResult E].
    rewrite E in H. unfold Expect.optional in H.
    rewrite classify_toValidator, expectingOptional_toValidator in H.
    destruct (toResult JUndefined) as [v | reason] eqn:Hv;
      injection H as <-; [| reflexivity].
    apply IH. rewrite E, classify_toValidator. exact Hv.
Qed.

(** X10. What a validator built by the factory hands to [onPass] is a
    value that the validator accepts, and validating it again gives it
    back unchanged. *)
Theorem validated_output_is_valid (s : Shape) :
  well_formed s ->
  forall input out,
    classify (build s) input = pass out ->
    classify (build s) out = pass out
    /\ worksWith (build s) out = true.
Proof.
  intro W.
  assert (G : forall input out,
             classify (build s) input = pass out ->
             classify (build s) out = pass out).
  { revert W.
    induction s as [p | fields IH | item IH | inner IH] using Shape_induction;
      intros W input out H.
    - assert (E := @classify_primitive p input out H). subst out. exact H.
    - destruct (@well_formed_object fields W) as (Hnodup & Hproto & Hwf).
      destruct (@classify_built_object fields input out Hnodup Hproto H)
        as (_ & _ & props & -> & Eprops & Pk & Hprops).
      cbn [build] in *.
      set (built := map (fun entry : string * Shape =>
                           match entry with (key, s') => (key, build s') end)
                        fields) in *.
      assert (Pb : Permutation (map fst (for_in built)) (map fst fields)).
      { rewrite <- (built_fields_names fields).
        apply Permutation_map, for_in_Permutation. }
      assert (Hagain : forall k v,
                 In (k, v) (for_in built) ->
                 exists y,
                   classify v (get_prop input k) = pass y
                   /\ get_prop (JObject props) k = y
                   /\ classify v y = pass y).
      { intros k v Hin.
        destruct (built_fields _ _ _ Hin) as (s' & Hs' & ->).
        destruct (Hprops k s' Hs') as (y & Hy & Hc).
        exists y. split; [exact Hc | split; [apply get_prop_own, Hy |]].
        rewrite Forall_forall in IH.
        apply (IH (k, s') Hs' (Hwf k s' Hs') (get_prop input k) y Hc). }
      rewrite classify_object by (try reflexivity; discriminate).
      rewrite object_for_in_check_fields by apply built_fields_validators.
      rewrite check_fields_pass.
      + cbn [app]. do 2 f_equal. rewrite Eprops at 2.
        apply map_ext_in. intros [k v] Hin.
        destruct (Hagain k v Hin) as (y & Hc & Hg & Hy).
        unfold validated_entry, validated. cbn [fst snd].
        rewrite Hg, Hy, Hc. reflexivity.
      + intro Hin. apply Hproto. apply (Permutation_in _ Pb), Hin.
      + intros k v Hin. destruct (Hagain k v Hin) as (y & _ & Hg & Hy).
        rewrite Hg. exists y. exact Hy.
      + apply (Permutation_NoDup (Permutation_sym Pb)), Hnodup.
    - cbn [build well_formed] in *.
      destruct (build_is_validator item) as [toResult E].
      rewrite E in *. apply classify_array_inv in H.
      destruct H as (elements & values & -> & -> & Hall).
      rewrite expectingArray_check_elements.
      apply check_elements_pass with (index := 0) (acc := []).
      clear - Hall IH W.
      induction Hall as [| x v elements values Hx _ IHall]; constructor.
      + specialize (IH W x v). rewrite !classify_toValidator in IH.
        apply IH, Hx.
      + exact IHall.
    - cbn [build well_formed] in *.
      destruct (build_is_validator inner) as [toResult E].
      assert (U := accepts_undefined inner).
      rewrite E in H, IH, U |- *. unfold Expect.optional in H |- *.
      rewrite classify_toValidator, expectingOptional_toValidator in H.
      rewrite classify_toValidator, expectingOptional_toValidator.
      injection H as <-.
      destruct (toResult input) as [v | reason] eqn:Hv.
      + specialize (IH W input v). rewrite !classify_toValidator in IH.
        rewrite (IH Hv). reflexivity.
      + destruct (toResult JUndefined) as [v |] eqn:Hu; [| reflexivity].
        f_equal. apply U. rewrite classify_toValidator. exact Hu. }
  intros input out H. split; [apply (G input out H) |].
  rewrite worksWith_is_validator by apply build_is_validator.
  rewrite (G input out H). reflexivity.
Qed.

Lemma validated_output_is_valid_witness :
  classify person (JObject [("name", JString "ryan"); ("age", one)]) =
    pass (JObject [("name", JString "ryan"); ("age", one)])
  /\ worksWith person (JObject [("name", JString "ryan"); ("age", one)]) = true.
Proof.
  apply (@validated_output_is_valid
           (SObject [("name", SPrimitive PString); ("age", SPrimitive PNumber)])
           ltac:(simpl; repeat split; repeat constructor; simpl;
                 intuition discriminate)
           (JObject [("age", one); ("name", JString "ryan");
                     ("admin", JBoolean true)])).
  reflexivity.
Defined.

(** X11. A validator of the factory that is not optional rejects at once
    an input of another type name than the one it expects, with the
    expectation of its name that got the type name of the input; for an
    object validator this holds for the type names other than [array].
    So apart from [optional] no validator accepts [undefined], and apart
    from [optional] and [null] none accepts null. *)
Theorem type_mismatch_rejected (s : Shape) (name : string) :
  expected_of s = Some name ->
  (forall data,
      Utils.typeOf data <> name ->
      (name = "object" -> Utils.typeOf data <> "array") ->
      classify (build s) data = fail (expectation name (Utils.typeOf data)))
  /\ classify (build s) JUndefined = fail (expectation name "undefined")
  /\ (name <> "null" ->
      classify (build s) JNull = fail (expectation name "null")).
Proof.
  intro E.
  assert (G : forall data,
             Utils.typeOf data <> name ->
             (name = "object" -> Utils.typeOf data <> "array") ->
             classify (build s) data =
             fail (expectation name (Utils.typeOf data))).
  { intros data N A.
    destruct s as [p | fields | item | inner]; simpl in E;
      try discriminate E; injection E as <-; cbn [build].
    - rewrite classify_primitive_typeOf.
      destruct (String.eqb_spec (Utils.typeOf data) (expected_name p));
        [contradiction | reflexivity].
    - apply classify_object_rejected.
      specialize (A eq_refl).
      destruct data; try reflexivity; exfalso;
        [apply A | apply N]; reflexivity.
    - unfold Expect.array. rewrite classify_toValidator.
      destruct data; try reflexivity. exfalso. apply N. reflexivity. }
  split; [exact G | split].
  - apply (G JUndefined).
    + destruct s as [[] | | |]; simpl in E; try discriminate E;
        injection E as <-; discriminate.
    + intros _. discriminate.
  - intro N. apply (G JNull).
    + intro T. apply N. symmetry. exact T.
    + intros _. discriminate.
Qed.

Lemma type_mismatch_rejected_witness :
  classify (build (SArray (SPrimitive PNumber))) (JObject []) =
    fail (expectation "array" (Utils.typeOf (JObject [])))
  /\ classify (build (SObject [("name", SPrimitive PString)])) JNull =
     fail (expectation "object" "null").
Proof.
  split.
  - apply (proj1 (@type_mismatch_rejected
                    (SArray (SPrimitive PNumber)) "array" eq_refl)).
    + discriminate.
    + discriminate.
  - apply (proj2 (proj2 (@type_mismatch_rejected
                           (SObject [("name", SPrimitive PString)])
                           "object" eq_refl))).
    discriminate.
Defined.

(** X12. Optional children make the aggregates total past their guard:
    an array validator over an optional child passes on every array, with
    the validated element or [undefined] at each position, and an object
    validator whose fields are all optional passes on every input that is
    an object and not null. *)
Theorem optional_children_total :
  (forall (toResult : ToResult) (elements : list value),
      classify (Expect.array (Expect.optional (toValidator toResult)))
               (JArray elements) =
      pass (JArray (map (validated (toValidator toResult)) elements)))
  /\ (forall (fields : Fields) (data : value),
        typeof data = "object" -> data <> JNull ->
        (forall k v, In (k, v) fields ->
                     exists toResult,
                       v = Expect.optional (toValidator toResult)) ->
        exists out, classify (Expect.object fields) data = pass (JObject out)).
Proof.
  split.
  - intros toResult elements. unfold Expect.optional.
    rewrite expectingArray_check_elements.
    apply check_elements_pass with (index := 0) (acc := []).
    induction elements as [| x rest IH]; constructor; [| exact IH].
    rewrite expectingOptional_toValidator. unfold validated.
    rewrite classify_toValidator. reflexivity.
  - intros fields data Htype Hnull Hopt.
    assert (Ho : forall k v, In (k, v) (for_in fields) ->
                   exists toResult, v = Expect.optional (toValidator toResult)).
    { intros k v Hin. apply (Hopt k).
      apply (Permutation_in _ (for_in_Permutation fields)), Hin. }
    rewrite classify_object by assumption.
    rewrite object_for_in_check_fields.
    + assert (Hp : exists out,
                 check_fields (for_in fields) data [] = pass out).
      { apply check_fields_passes.
        intros k v Hin. destruct (Ho k v Hin) as [toResult ->].
        unfold Expect.optional.
        rewrite classify_toValidator, expectingOptional_toValidator.
        eexists; reflexivity. }
      destruct Hp as [out Hout].
      assert (Hinv : exists props,
                 out = JObject props /\ forall k y, In (k, y) props -> True).
      { apply (@check_fields_invariant (fun _ _ => True) data (for_in fields))
          with (obj := @nil (string * value)); auto. }
      destruct Hinv as (props & -> & _).
      exists props. exact Hout.
    + apply Forall_forall. intros [k v] Hin.
      destruct (Ho k v Hin) as [toResult ->].
      unfold Expect.optional. simpl. auto with validators.
Qed.

Lemma optional_children_total_witness :
  exists out,
    classify (Expect.object [("nick", Expect.optional Expect.string)])
             (JObject [("nick", one)]) = pass (JObject out).
Proof.
  apply (proj2 optional_children_total
           [("nick", Expect.optional Expect.string)]
           (JObject [("nick", one)])).
  - reflexivity.
  - discriminate.
  - intros k v [E | []]. injection E as <- <-.
    exists (expecting "string"). reflexivity.
Defined.

(** ** The handlers of the express example *)

Lemma worksWith_string (x : value) :
  worksWith Expect.string x = true -> exists s, x = JString s.
Proof.
  destruct x; simpl; intro H; try discriminate H. eexists; reflexivity.
Qed.

Lemma worksWith_number (x : value) :
  worksWith Expect.number x = true -> exists n, x = JNumber n.
Proof.
  destruct x; simpl; intro H; try discriminate H. eexists; reflexivity.
Qed.

Lemma person_validators :
  Forall (fun entry : string * Validator => is_validator (snd entry))
    [("name", Expect.string); ("age", Expect.number)].
Proof. repeat constructor; eexists; reflexivity. Qed.

Lemma blogPost_validators :
  Forall (fun entry : string * Validator => is_validator (snd entry))
    [("title", Expect.string); ("body", Expect.string)].
Proof. repeat constructor; eexists; reflexivity. Qed.

(** X13. The handler of [POST /api/people] answers 200 exactly when the
    body is an object, not null, whose [name] is a string and whose [age]
    is a number, and then it sends back that name and that age; on every
    other body it answers 400 with the fixed error text. *)
Theorem post_people_responds (body : value) :
  (Express.status (Express.post_people body) = 200 <->
   typeof body = "object" /\ body <> JNull
   /\ (exists s, get_prop body "name" = JString s)
   /\ (exists n, get_prop body "age" = JNumber n))
  /\ (Express.status (Express.post_people body) = 200 ->
      Express.json (Express.post_people body) =
      JObject [("status", JNumber (number_of_Z 200));
               ("name", get_prop body "name");
               ("age", get_prop body "age")])
  /\ (Express.status (Express.post_people body) <> 200 ->
      Express.post_people body =
      {| Express.status := 400;
         Express.json :=
           JObject [("status", JNumber (number_of_Z 400));
                    ("error", JString "name and age are required.")] |}).
Proof.
  assert (I := object_passes_iff body person_validators).
  fold Express.person in I.
  unfold Express.post_people.
  destruct (worksWith Express.person body) eqn:W; cbn [Express.status Express.json].
  - destruct (proj1 I eq_refl) as (Htype & Hnull & Hall).
    repeat split; try assumption; try reflexivity.
    + apply worksWith_string, (Hall "name"). left; reflexivity.
    + apply worksWith_number, (Hall "age"). right; left; reflexivity.
    + intro N. exfalso. apply N. reflexivity.
  - repeat split; try discriminate; try reflexivity.
    intros (Htype & Hnull & [s Hs] & [n Hn]).
    assert (T : false = true); [| discriminate T].
    apply I. split; [exact Htype | split; [exact Hnull |]].
    intros k v [E | [E | []]]; injection E as <- <-.
    + rewrite Hs. reflexivity.
    + rewrite Hn. reflexivity.
Qed.

Lemma post_people_responds_witness :
  Express.json
    (Express.post_people
       (JObject [("name", JString "Ryan"); ("age", number 123 0)])) =
  JObject [("status", JNumber (number_of_Z 200));
           ("name", JString "Ryan");
           ("age", number 123 0)]
  /\ Express.post_people (JObject [("name", JString "Ryan")]) =
     {| Express.status := 400;
        Express.json :=
          JObject [("status", JNumber (number_of_Z 400));
                   ("error", JString "name and age are required.")] |}.
Proof.
  split.
  - apply (proj1 (proj2 (post_people_responds
                           (JObject [("name", JString "Ryan");
                                     ("age", number 123 0)])))).
    reflexivity.
  - apply (proj2 (proj2 (post_people_responds
                           (JObject [("name", JString "Ryan")])))).
    discriminate.
Defined.

Lemma post_posts_classify (body : value) :
  Express.post_posts body =
  match classify Express.blogPost body with
  | pass post =>
      {| Express.status := 200;
         Express.json := JObject [("status", JNumber (number_of_Z 200));
                                  ("post", post)] |}
  | fail reason =>
      {| Express.status := 400;
         Express.json :=
           JObject [("status", JNumber (number_of_Z 400));
                    ("reason", Express.problem_value reason)] |}
  end.
Proof.
  unfold Express.post_posts.
  rewrite run_is_validator
    by (unfold Express.blogPost, Expect.object; auto with validators).
  reflexivity.
Qed.

Lemma blogPost_accepts (body : value) (title text : string) :
  typeof body = "object" -> body <> JNull ->
  get_prop body "title" = JString title ->
  get_prop body "body" = JString text ->
  classify Express.blogPost body =
  pass (JObject [("title", JString title); ("body", JString text)]).
Proof.
  intros Htype Hnull Ht Hb. unfold Express.blogPost.
  rewrite classify_object by assumption.
  rewrite object_for_in_check_fields by apply blogPost_validators.
  change (for_in [("title", Expect.string); ("body", Expect.string)])
    with [("title", Expect.string); ("body", Expect.string)].
  unfold check_fields. rewrite Ht, Hb. reflexivity.
Qed.

(** X14. The handler of [POST /api/posts] answers 200 exactly on the
    bodies that are objects with a string [title] and a string [body],
    and then the post it sends back has these two properties and no
    other, whatever else the request carried; on every other body it
    answers 400 with the problem that the validator reports. *)
Theorem post_posts_responds (body : value) :
  (forall title text,
      typeof body = "object" -> body <> JNull ->
      get_prop body "title" = JString title ->
      get_prop body "body" = JString text ->
      Express.post_posts body =
      {| Express.status := 200;
         Express.json :=
           JObject [("status", JNumber (number_of_Z 200));
                    ("post", JObject [("title", JString title);
                                      ("body", JString text)])] |})
  /\ (Express.status (Express.post_posts body) = 200 ->
      exists title text,
        typeof body = "object" /\ body <> JNull
        /\ get_prop body "title" = JString title
        /\ get_prop body "body" = JString text
        /\ Express.json (Express.post_posts body) =
           JObject [("status", JNumber (number_of_Z 200));
                    ("post", JObject [("title", JString title);
                                      ("body", JString text)])])
  /\ (Express.status (Express.post_posts body) <> 200 ->
      exists reason,
        classify Express.blogPost body = fail reason
        /\ Express.post_posts body =
           {| Express.status := 400;
              Express.json :=
                JObject [("status", JNumber (number_of_Z 400));
                         ("reason", Express.problem_value reason)] |}).
Proof.
  assert (I := object_passes_iff body blogPost_validators).
  fold Express.blogPost in I.
  assert (V : is_validator Express.blogPost)
    by (unfold Express.blogPost, Expect.object; auto with validators).
  rewrite post_posts_classify.
  repeat split.
  - intros title text Htype Hnull Ht Hb.
    rewrite (blogPost_accepts Htype Hnull Ht Hb). reflexivity.
  - intro S.
    destruct (classify Express.blogPost body) as [post | reason] eqn:C;
      [| discriminate S].
    assert (W : worksWith Express.blogPost body = true).
    { apply worksWith_passes; [exact V | exists post; exact C]. }
    destruct (proj1 I W) as (Htype & Hnull & Hall).
    destruct (worksWith_string _ (Hall "title" _ (or_introl eq_refl)))
      as [title Ht].
    destruct (worksWith_string _ (Hall "body" _ (or_intror (or_introl eq_refl))))
      as [text Hb].
    exists title, text. repeat split; try assumption.
    rewrite (blogPost_accepts Htype Hnull Ht Hb) in C.
    injection C as <-. reflexivity.
  - intro S.
    destruct (classify Express.blogPost body) as [post | reason] eqn:C.
    + exfalso. apply S. reflexivity.
    + exists reason. split; reflexivity.
Qed.

Lemma post_posts_responds_witness :
  Express.post_posts
    (JObject [("title", JString "Ryan"); ("body", JString "Hello world!");
              ("admin", JBoolean true)]) =
  {| Express.status := 200;
     Express.json :=
       JObject [("status", JNumber (number_of_Z 200));
                ("post", JObject [("title", JString "Ryan");
                                  ("body", JString "Hello world!")])] |}.
Proof.
  apply (proj1 (post_posts_responds
                  (JObject [("title", JString "Ryan");
                            ("body", JString "Hello world!");
                            ("admin", JBoolean true)]))).
  - reflexivity.
  - discriminate.
  - reflexivity.
  - reflexivity.
Defined.

(** ** Problems and their rendering *)

(** X15. The problem a validator built by the factory reports follows
    the structure of the validator: every field it names is a declared
    field of the object validator reached there, every index stands for an
    element of an array validator, and the innermost expectation expects
    the name of the validator at which the path stops.  An optional
    validator, at the top or inside, contributes no problem. *)
Theorem failure_follows_shape (s : Shape) :
  forall input problem,
    classify (build s) input = fail problem -> follows s problem.
Proof.
  induction s as [p | fields IH | item IH | inner IH] using Shape_induction;
    intros input problem H; cbn [build] in H.
  - rewrite classify_primitive_typeOf in H.
    destruct (Utils.typeOf input =? expected_name p); [discriminate H |].
    injection H as <-. constructor.
  - destruct (object_guard_cases input) as [[Htype Hnull] | G].
    + rewrite classify_object in H by assumption.
      rewrite object_for_in_check_fields in H
        by apply built_fields_validators.
      apply check_fields_fail_inv in H.
      destruct H as (pre & key & validator & post & reason & E & _ & Hk & ->).
      assert (Hin : In (key, validator) (pre ++ (key, validator) :: post))
        by (apply in_or_app; right; left; reflexivity).
      rewrite <- E in Hin.
      destruct (built_fields _ _ _ Hin) as (s' & Hs' & ->).
      rewrite Forall_forall in IH.
      apply follows_field with (s' := s'); [exact Hs' |].
      apply (IH (key, s') Hs' (get_prop input key) reason Hk).
    + destruct (classify_object_rejected
                  (map (fun entry : string * Shape =>
                          match entry with (key, s') => (key, build s') end)
                       fields) input G) as (E & _).
      rewrite E in H. injection H as <-. constructor.
  - destruct (build_is_validator item) as [toResult E].
    rewrite E in H.
    destruct (instanceofArray input) eqn:A.
    + destruct input; try discriminate A.
      rewrite expectingArray_check_elements in H.
      apply check_elements_fail_inv in H.
      destruct H as (before & values & x & after & reason & -> & _ & Hx & ->).
      apply follows_index. apply (IH x).
      rewrite E, classify_toValidator. exact Hx.
    + unfold Expect.array in H. rewrite classify_toValidator in H.
      destruct input; try discriminate A; simpl in H;
        injection H as <-; constructor.
  - exfalso.
    apply (@optional_never_fails (build inner) input problem
             (build_is_validator inner)), H.
Qed.

Lemma failure_follows_shape_witness :
  follows
    (SObject [("people",
               SArray (SObject [("name", SPrimitive PString);
                                ("age", SOptional (SPrimitive PNumber))]))])
    (problemWithField "people"
       (problemWithIndex 1
          (problemWithField "name" (expectation "string" "undefined")))).
Proof.
  apply (@failure_follows_shape
           (SObject [("people",
                      SArray (SObject [("name", SPrimitive PString);
                                       ("age", SOptional (SPrimitive PNumber))]))])
           (JObject [("people",
                      JArray [JObject [("name", JString "ryan")];
                              JObject [("age", JString "93")]])])).
  reflexivity.
Defined.

Lemma append_assoc (a b c : string) :
  ((a ++ b) ++ c = a ++ (b ++ c))%string.
Proof.
  induction a as [| ch a IH]; simpl; [reflexivity | rewrite IH; reflexivity].
Qed.

(** X16. The rendering of a problem ends with the sentence of its
    innermost expectation, whatever fields and indices lead to it: the
    text of every problem says which name was expected and which was
    got. *)
Theorem toString_ends_with_innermost (problem : Problem) :
  exists path : string,
    Problem.toString problem = (path ++ sentence (innermost problem))%string.
Proof.
  induction problem as [expected actual | field inner [path IH]
                       | index inner [path IH]]; cbn [Problem.toString innermost].
  - exists ""%string. reflexivity.
  - exists ("Problem with field " ++ quote ++ field ++ quote ++ ": " ++ path)%string.
    rewrite IH, !append_assoc. reflexivity.
  - exists ("Problem at index " ++ quote ++ string_of_index index ++ quote
            ++ ": " ++ path)%string.
    rewrite IH, !append_assoc. reflexivity.
Qed.
